(** * Drift-bottle plugin (src/main.py): quota store, bottle client, handlers

    A shallow embedding of [DriftBottlePlugin].  Python [str] values are
    sequences of Unicode code points, so slicing and prefix tests work on
    code points exactly as in the source.  The mutable fields of the plugin
    ([self.user_data], the file [user_data.json], the requests sent through
    [self.session]) are threaded explicitly through every operation. *)

From Stdlib Require Import ZArith NArith List String Ascii Lia.
From Stdlib Require Import DecimalString.
From stdpp Require Import gmap list.

Local Open Scope N_scope.

(** ** Python strings *)

Module PyStr.

(** A [str] is the list of its code points. *)
Abbreviation str := (list N).

(** Source literals are written as UTF-8 text and decoded once. *)
Fixpoint utf8_decode (bs : list N) : str :=
  match bs with
  | [] => []
  | b0 :: r0 =>
    if b0 <? 128 then b0 :: utf8_decode r0
    else if b0 <? 224 then
      match r0 with
      | b1 :: r1 => ((b0 - 192) * 64 + (b1 - 128)) :: utf8_decode r1
      | _ => []
      end
    else if b0 <? 240 then
      match r0 with
      | b1 :: b2 :: r2 =>
        ((b0 - 224) * 4096 + (b1 - 128) * 64 + (b2 - 128)) :: utf8_decode r2
      | _ => []
      end
    else
      match r0 with
      | b1 :: b2 :: b3 :: r3 =>
        ((b0 - 240) * 262144 + (b1 - 128) * 4096 + (b2 - 128) * 64 + (b3 - 128))
          :: utf8_decode r3
      | _ => []
      end
  end.

Definition lit (s : string) : str :=
  utf8_decode (List.map N_of_ascii (list_ascii_of_string s)).

Definition nl : str := [10].

(** [s.startswith(p)] *)
Fixpoint startswith (s p : str) {struct p} : bool :=
  match p with
  | [] => true
  | c :: p' =>
    match s with
    | [] => false
    | d :: s' => (d =? c) && startswith s' p'
    end
  end.

(** [s.startswith((p1, ..., pn))] *)
Definition startswith_any (s : str) (ps : list str) : bool :=
  existsb (startswith s) ps.

(** [str.isspace] on one code point, the characters [str.strip()] removes. *)
Definition isspace (c : N) : bool :=
  ((9 <=? c) && (c <=? 13)) || ((28 <=? c) && (c <=? 32))
  || (c =? 133) || (c =? 160) || (c =? 5760)
  || ((8192 <=? c) && (c <=? 8202))
  || (c =? 8232) || (c =? 8233) || (c =? 8239) || (c =? 8287) || (c =? 12288).

Fixpoint lstrip (s : str) : str :=
  match s with
  | [] => []
  | c :: s' => if isspace c then lstrip s' else s
  end.

Definition rstrip (s : str) : str := rev (lstrip (rev s)).

(** [s.strip()] *)
Definition strip (s : str) : str := rstrip (lstrip s).

(** [s[n:]] and [s[:n]] for a literal [n >= 0] *)
Definition slice_from (n : nat) (s : str) : str := drop n s.
Definition slice_to (n : nat) (s : str) : str := take n s.

(** [s.split(sep)] for a one-character separator *)
Fixpoint split (sep : N) (s : str) : list str :=
  match s with
  | [] => [[]]
  | c :: s' =>
    if c =? sep then [] :: split sep s'
    else match split sep s' with
         | l :: ls => (c :: l) :: ls
         | [] => [[c]]
         end
  end.

(** [s.split(sep, 1)] *)
Fixpoint split1 (sep : N) (s : str) : list str :=
  match s with
  | [] => [[]]
  | c :: s' =>
    if c =? sep then [[]; s']
    else match split1 sep s' with
         | l :: ls => (c :: l) :: ls
         | [] => [[c]]
         end
  end.

(** [str(z)] for an [int] *)
Definition str_of_Z (z : Z) : str :=
  List.map N_of_ascii (list_ascii_of_string (NilZero.string_of_int (Z.to_int z))).

(** Python truthiness of a [str] and of an [Optional[str]] *)
Definition truthy (s : str) : bool :=
  match s with [] => false | _ => true end.

Definition truthy_opt (o : option str) : bool :=
  match o with Some s => truthy s | None => false end.

End PyStr.
Import PyStr.

(** ** Data model *)

Local Open Scope Z_scope.

(** One user's counters, [{"pick": n, "throw": m}]. *)
Record QuotaRecord := { pick : Z; throw : Z }.

(** [self.user_data]: [{"last_reset_date": d, "users": {qq: record}}]. *)
Record UserData := {
  last_reset_date : str;
  users : gmap str QuotaRecord
}.

(** A GET request issued through [self.session]; [params] keeps the
    insertion order of the source dict. *)
Record Request := { url : str; params : list (str * str) }.

(** A 2xx response, with the text [resp.text()] gives. *)
Inductive Response :=
| Body (text : str).

(** The ways the [try] body of [_call_bottle_api] can raise: the request
    times out, the connection fails, [raise_for_status] meets a 4xx/5xx
    status, or anything else goes wrong. *)
Inductive RequestError :=
| Timeout
| ConnectionFailed
| BadStatus (status : Z)
| OtherError (msg : str).

(** What one [self.session.get] does. *)
Inductive Outcome :=
| Responds (resp : Response)
| Fails (e : RequestError).

(** How a call of [_call_bottle_api] ends: it returns a string, or an
    exception with message [str(e)] leaves it. *)
Inductive CallResult :=
| Returned (api_result : str)
| Raised (message : str).

(** Message-chain components and the results a handler yields. *)
Inductive Comp :=
| Plain (text : str)
| Image (img : str)
| OtherComp.

Inductive MessageEventResult :=
| plain_result (text : str)
| chain_result (chain : list Comp).

Record AstrMessageEvent := {
  get_sender_id : str;
  message : list Comp
}.

(** The fields fixed by [__init__]. [session_timeout] is the [total] of the
    [aiohttp.ClientTimeout] that [self.session] was built with. *)
Record Plugin := {
  api_key : str;
  daily_pick_limit : Z;
  daily_throw_limit : Z;
  api_timeout : Z;
  session_timeout : Z
}.

(** The mutable part: the in-memory store, every content written to
    [user_data.json] (newest first) and every request sent (newest first). *)
Record World := {
  user_data : UserData;
  saved : list UserData;
  requests : list Request
}.

Definition set_user_data (d : UserData) (w : World) : World :=
  {| user_data := d; saved := saved w; requests := requests w |}.

(** ** Quota store *)

(** [_save_user_data]: the whole document is dumped to the file. Writes are
    taken to succeed. *)
Definition _save_user_data (data : UserData) (w : World) : World :=
  {| user_data := user_data w; saved := data :: saved w; requests := requests w |}.

(** [_check_reset_data]; [today] is [time.strftime("%Y-%m-%d")]. *)
Definition _check_reset_data (today : str) (w : World) : World :=
  if bool_decide (last_reset_date (user_data w) <> today) then
    let w1 := set_user_data {| last_reset_date := today; users := users (user_data w) |} w in
    let w2 := set_user_data {| last_reset_date := last_reset_date (user_data w1); users := ∅ |} w1 in
    _save_user_data (user_data w2) w2
  else w.

Definition zero_record : QuotaRecord := {| pick := 0; throw := 0 |}.

(** [self.user_data["users"][qq_id] = r] *)
Definition set_user (qq_id : str) (r : QuotaRecord) (w : World) : World :=
  set_user_data {| last_reset_date := last_reset_date (user_data w);
                   users := <[qq_id := r]> (users (user_data w)) |} w.

(** [_get_user_count] *)
Definition _get_user_count (today : str) (qq_id : str) (w : World) : QuotaRecord * World :=
  let w1 := _check_reset_data today w in
  match users (user_data w1) !! qq_id with
  | None =>
    let w2 := set_user qq_id zero_record w1 in
    let w3 := _save_user_data (user_data w2) w2 in
    (zero_record, w3)
  | Some r => (r, w1)
  end.

(** ** Bottle client *)

Definition api_url : str := lit "http://rnrqsj.top/api/a/index.php".

(** The query parameters built by [_call_bottle_api]. *)
Definition build_params (p : Plugin) (action qq_id content : str) (image_url : option str)
  : list (str * str) :=
  [(lit "id", qq_id); (lit "key", api_key p); (lit "type", lit "text")]
  ++ (if bool_decide (action = lit "throw") then
        (if truthy content then [(lit "character", content)] else [])
        ++ (match image_url with
            | Some u => if truthy u then [(lit "url", u)] else []
            | None => []
            end)
      else []).

(** The value the [try] body computes from a 2xx response. *)
Definition parse_response (p : Plugin) (resp : Response) : str :=
  match resp with
  | Body text =>
    let result := strip text in
    if negb (startswith result (lit "错误：")) then result
    else lit "API错误：" ++ slice_from 4 result
  end.

(** The first [except] clause names [aiohttp.ClientTimeout], the settings
    class that [_init_aiohttp_session] instantiates, which is not an
    exception class.  When the [try] body raises, whatever the exception,
    Python refuses to match it against that class and raises a [TypeError]
    with this message there; the clauses after it are never tried. *)
Definition except_clause_error : str :=
  lit "catching classes that do not inherit from BaseException is not allowed".

(** [_call_bottle_api]; [out] is what the network does with the request.
    The request has been issued in either case. *)
Definition _call_bottle_api (p : Plugin) (action qq_id content : str)
    (image_url : option str) (out : Outcome) (w : World) : CallResult * World :=
  let req := {| url := api_url; params := build_params p action qq_id content image_url |} in
  let w1 := {| user_data := user_data w; saved := saved w; requests := req :: requests w |} in
  match out with
  | Responds resp => (Returned (parse_response p resp), w1)
  | Fails _ => (Raised except_clause_error, w1)
  end.

(** [_extract_image_url]: the first image whose URL is an HTTP(S) link. *)
Fixpoint _extract_image_url (msg : list Comp) : option str :=
  match msg with
  | [] => None
  | Image u :: rest =>
    if startswith_any u [lit "http://"; lit "https://"] then Some u
    else _extract_image_url rest
  | _ :: rest => _extract_image_url rest
  end.

(** ** Command handlers

    A handler is an async generator; its value here is the list of results
    it yields together with the world it leaves.  [out] is the outcome of
    the request if the handler gets to send one.  The value is that of a
    handler that runs from its start to its end with no other handler
    scheduled at its awaits; interleaved runs are outside this embedding.
    The [except Exception] clause around each body is what catches the
    exception leaving [_call_bottle_api]; nothing else raises here, the
    store being well typed and file writes taken to succeed. *)

Definition failure_prefixes : list str := [lit "API错误"; lit "请求"; lit "调用"].

(** The reply of the [except Exception] clause of a pick or a throw. *)
Definition operation_failed_text (message : str) : str :=
  lit "❌ 操作失败：" ++ slice_to 30 message ++ lit "...".

(** The loop over [api_result.split("\n")] at the end of [handle_pick]: the
    first line starting with the label decides, then [break]. *)
Fixpoint reply_image (lines : list str) : list Comp :=
  match lines with
  | [] => []
  | line :: rest =>
    if startswith line (lit "图片URL:") then
      match split1 58 line with
      | _ :: v :: _ =>
        let img_url := strip v in
        if bool_decide (img_url <> lit "无")
           && startswith_any img_url [lit "http://"; lit "https://"]
        then [Image img_url] else []
      | _ => []
      end
    else reply_image rest
  end.

Definition pick_limit_text (p : Plugin) : str :=
  lit "今日捡瓶次数已用尽！" ++ nl ++ lit "每日上限：" ++ str_of_Z (daily_pick_limit p)
  ++ lit "次" ++ nl ++ lit "明日0点自动重置".

Definition throw_limit_text (p : Plugin) : str :=
  lit "今日投瓶次数已用尽！" ++ nl ++ lit "每日上限：" ++ str_of_Z (daily_throw_limit p)
  ++ lit "次" ++ nl ++ lit "明日0点自动重置".

Definition throw_validation_text : str :=
  lit "❌ 投放失败：需携带文字内容或图片！" ++ nl ++ lit "示例：" ++ nl
  ++ lit "投漂流瓶 今天天气真好～" ++ nl ++ lit "（发送时可附带图片）".

(** [handle_pick] *)
Definition handle_pick (p : Plugin) (today : str) (out : Outcome)
    (event : AstrMessageEvent) (w : World) : list MessageEventResult * World :=
  let qq_id := get_sender_id event in
  let '(user_count, w1) := _get_user_count today qq_id w in
  if daily_pick_limit p <=? pick user_count then
    ([plain_result (pick_limit_text p)], w1)
  else
    match _call_bottle_api p (lit "pick") qq_id [] (Some []) out w1 with
    | (Raised message, w2) => ([plain_result (operation_failed_text message)], w2)
    | (Returned api_result, w2) =>
      if startswith_any api_result failure_prefixes then
        ([plain_result (lit "❌ 捡瓶失败：" ++ api_result)], w2)
      else
        let user_count' := {| pick := pick user_count + 1; throw := throw user_count |} in
        let w3 := set_user qq_id user_count' w2 in
        let w4 := _save_user_data (user_data w3) w3 in
        let remaining := daily_pick_limit p - pick user_count' in
        let reply_chain :=
          [Plain (lit "✅ 捡到漂流瓶啦！" ++ nl ++ api_result ++ nl ++ nl
                  ++ lit "📊 今日剩余：" ++ str_of_Z remaining ++ lit "次")]
          ++ reply_image (split 10 api_result) in
        ([chain_result reply_chain], w4)
    end.

(** [handle_throw] *)
Definition handle_throw (p : Plugin) (today : str) (out : Outcome)
    (event : AstrMessageEvent) (content : str) (w : World)
  : list MessageEventResult * World :=
  let qq_id := get_sender_id event in
  let '(user_count, w1) := _get_user_count today qq_id w in
  if daily_throw_limit p <=? throw user_count then
    ([plain_result (throw_limit_text p)], w1)
  else
    let image_url := _extract_image_url (message event) in
    if negb (truthy content) && negb (truthy_opt image_url) then
      ([plain_result throw_validation_text], w1)
    else
      match _call_bottle_api p (lit "throw") qq_id content image_url out w1 with
      | (Raised message, w2) => ([plain_result (operation_failed_text message)], w2)
      | (Returned api_result, w2) =>
        if startswith_any api_result failure_prefixes then
          ([plain_result (lit "❌ 投瓶失败：" ++ api_result)], w2)
        else
          let user_count' := {| pick := pick user_count; throw := throw user_count + 1 |} in
          let w3 := set_user qq_id user_count' w2 in
          let w4 := _save_user_data (user_data w3) w3 in
          let remaining := daily_throw_limit p - throw user_count' in
          let reply_chain :=
            [Plain (lit "✅ 漂流瓶投放成功！" ++ nl ++ api_result ++ nl ++ nl
                    ++ lit "📊 今日剩余：" ++ str_of_Z remaining ++ lit "次")]
            ++ (match image_url with
                | Some u => if truthy u then [Plain (nl ++ lit "你投放的图片："); Image u] else []
                | None => []
                end) in
          ([chain_result reply_chain], w4)
      end.

Definition stats_lines (p : Plugin) (user_count : QuotaRecord) : str :=
  lit "✅ 已捡瓶：" ++ str_of_Z (pick user_count) ++ lit "/" ++ str_of_Z (daily_pick_limit p)
  ++ lit "次（剩余" ++ str_of_Z (daily_pick_limit p - pick user_count) ++ lit "）" ++ nl
  ++ lit "✅ 已投瓶：" ++ str_of_Z (throw user_count) ++ lit "/" ++ str_of_Z (daily_throw_limit p)
  ++ lit "次（剩余" ++ str_of_Z (daily_throw_limit p - throw user_count) ++ lit "）".

(** [handle_my_stats] *)
Definition handle_my_stats (p : Plugin) (today : str) (event : AstrMessageEvent) (w : World)
  : list MessageEventResult * World :=
  let qq_id := get_sender_id event in
  let '(user_count, w1) := _get_user_count today qq_id w in
  ([plain_result (lit "📊 你的今日漂流瓶统计" ++ nl ++ stats_lines p user_count ++ nl
                  ++ lit "📌 次数每日0点自动重置～")], w1).

(** [admin_query]: reads [self.user_data["users"]] directly. *)
Definition admin_query (p : Plugin) (target_qq : str) (w : World)
  : list MessageEventResult * World :=
  let target_qq := strip target_qq in
  let user_count := default zero_record (users (user_data w) !! target_qq) in
  ([plain_result (lit "🔍 【管理员查询】QQ" ++ target_qq ++ lit "今日统计" ++ nl
                  ++ stats_lines p user_count)], w).

(** [admin_reset] *)
Definition admin_reset (p : Plugin) (target_qq : str) (w : World)
  : list MessageEventResult * World :=
  let target_qq := strip target_qq in
  match users (user_data w) !! target_qq with
  | Some _ =>
    let w1 := set_user target_qq zero_record w in
    let w2 := _save_user_data (user_data w1) w1 in
    ([plain_result (lit "✅ 已重置QQ" ++ target_qq ++ lit "的今日捡/投瓶次数！")], w2)
  | None =>
    ([plain_result (lit "ℹ️ QQ" ++ target_qq ++ lit "今日未操作，无需重置～")], w)
  end.

(** [admin_global] *)
Definition admin_global (p : Plugin) (w : World)
  : list MessageEventResult * World :=
  let us := users (user_data w) in
  let total_users := Z.of_nat (size us) in
  let total_pick := map_fold (fun _ u acc => pick u + acc) 0 us in
  let total_throw := map_fold (fun _ u acc => throw u + acc) 0 us in
  ([plain_result (lit "📊 【管理员全局统计】今日数据" ++ nl
                  ++ lit "👥 参与用户：" ++ str_of_Z total_users ++ lit "人" ++ nl
                  ++ lit "✅ 总捡瓶：" ++ str_of_Z total_pick ++ lit "次" ++ nl
                  ++ lit "✅ 总投瓶：" ++ str_of_Z total_throw ++ lit "次" ++ nl
                  ++ lit "📌 上限：捡" ++ str_of_Z (daily_pick_limit p) ++ lit "次/人，投"
                  ++ str_of_Z (daily_throw_limit p) ++ lit "次/人")], w).

(** ** Initialisation *)

(** The plugin configuration, a dict read with [config.get(key, default)]. *)
Record AstrBotConfig := {
  cfg_api_key : option str;
  cfg_daily_pick_limit : option Z;
  cfg_daily_throw_limit : option Z;
  cfg_api_timeout : option Z
}.

(** [_init_aiohttp_session]: the [total] of the session's [ClientTimeout].
    No later request overrides it, so it is the timeout of every request. *)
Definition _init_aiohttp_session (config : AstrBotConfig) : Z :=
  default 8 (cfg_api_timeout config).

(** [_init_config]: the fields it sets and the configuration it leaves. *)
Definition _init_config (config : AstrBotConfig) (session_total : Z)
  : Plugin * AstrBotConfig :=
  let key := strip (default [] (cfg_api_key config)) in
  let pick_limit := Z.max 1 (default 10 (cfg_daily_pick_limit config)) in
  let throw_limit := Z.max 1 (default 5 (cfg_daily_throw_limit config)) in
  let timeout := Z.max 3 (default 8 (cfg_api_timeout config)) in
  let config' :=
    if bool_decide (cfg_daily_pick_limit config <> Some pick_limit) then
      {| cfg_api_key := cfg_api_key config;
         cfg_daily_pick_limit := Some pick_limit;
         cfg_daily_throw_limit := cfg_daily_throw_limit config;
         cfg_api_timeout := cfg_api_timeout config |}
    else config in
  ({| api_key := key; daily_pick_limit := pick_limit; daily_throw_limit := throw_limit;
      api_timeout := timeout; session_timeout := session_total |}, config').

(** [__init__], as far as the configuration goes: the session is built
    first, then [_init_config] runs. *)
Definition init (config : AstrBotConfig) : Plugin * AstrBotConfig :=
  _init_config config (_init_aiohttp_session config).

(** ** Loading the persisted store *)

(** A JSON document as [json.load] returns it. *)
#[local] Unset Elimination Schemes.
Inductive json :=
| JNull
| JBool (b : bool)
| JNum (z : Z)
| JStr (s : str)
| JArr (items : list json)
| JObj (fields : list (str * json)).
#[local] Set Elimination Schemes.

(** [user_data.json] as [_load_user_data] meets it: no file, a file that
    [open]/[json.load] raises on, or a file holding a document. *)
Inductive FileState :=
| Missing
| Unreadable
| Holds (doc : json).

(** [d[key]] on a JSON object; [None] stands for [KeyError]. *)
Fixpoint obj_get (key : str) (fields : list (str * json)) : option json :=
  match fields with
  | [] => None
  | (k, v) :: rest => if bool_decide (k = key) then Some v else obj_get key rest
  end.

(** [sub in s] on strings *)
Fixpoint is_substring (sub s : str) : bool :=
  startswith s sub || match s with [] => false | _ :: s' => is_substring sub s' end.

(** [key in data] for a string [key]; [None] stands for the [TypeError] of
    a value that is not a container. *)
Definition py_in (key : str) (data : json) : option bool :=
  match data with
  | JObj fields => Some (bool_decide (is_Some (obj_get key fields)))
  | JArr items =>
    Some (existsb (fun x => match x with JStr s => bool_decide (s = key) | _ => false end) items)
  | JStr s => Some (is_substring key s)
  | JNull | JBool _ | JNum _ => None
  end.

(** [_get_default_user_data] *)
Definition _get_default_user_data (today : str) : json :=
  JObj [(lit "last_reset_date", JStr today); (lit "users", JObj [])].

(** [_load_user_data]: the document it returns and the file it leaves.
    Both [except] paths and both early paths dump the default document. *)
Definition _load_user_data (today : str) (f : FileState) : json * FileState :=
  let use_default :=
    let default_data := _get_default_user_data today in
    (default_data, Holds default_data) in
  match f with
  | Missing => use_default
  | Unreadable => use_default
  | Holds data =>
    match py_in (lit "last_reset_date") data with
    | None => use_default
    | Some false => use_default
    | Some true => (data, f)
    end
  end.

(** [self.user_data["users"]] on the loaded document. *)
Definition loaded_users (data : json) : option json :=
  match data with
  | JObj fields => obj_get (lit "users") fields
  | _ => None
  end.

(** ** Worlds reached by the early exits *)

(** The world after a request has been sent from [w] and nothing else. *)
Definition sent (req : Request) (w : World) : World :=
  {| user_data := user_data w; saved := saved w; requests := req :: requests w |}.

Definition pick_request (p : Plugin) (qq_id : str) : Request :=
  {| url := api_url; params := build_params p (lit "pick") qq_id [] (Some []) |}.

Definition throw_request (p : Plugin) (event : AstrMessageEvent) (content : str) : Request :=
  {| url := api_url;
     params := build_params p (lit "throw") (get_sender_id event) content
                 (_extract_image_url (message event)) |}.

(** ** Concrete inputs used by the examples *)

Definition no_config : AstrBotConfig :=
  {| cfg_api_key := None; cfg_daily_pick_limit := None;
     cfg_daily_throw_limit := None; cfg_api_timeout := None |}.

(** The plugin with every setting at its default: caps 10 and 5. *)
Definition plugin_default : Plugin := fst (init no_config).

Definition u1 : str := lit "u1".

Definition event_u1 : AstrMessageEvent := {| get_sender_id := u1; message := [] |}.

(** A sender no store below has met. *)
Definition event_u2 : AstrMessageEvent := {| get_sender_id := lit "u2"; message := [] |}.

Definition day1 : str := lit "2020-01-01".
Definition day2 : str := lit "2020-01-02".

(** Scenario B of the specification: a store last reset on [day1]. *)
Definition stale_world : World :=
  {| user_data := {| last_reset_date := day1;
                     users := {[ u1 := {| pick := 3; throw := 1 |} ]} |};
     saved := []; requests := [] |}.

(** Scenario A: the sender has used all ten picks of [day2]. *)
Definition capped_world : World :=
  {| user_data := {| last_reset_date := day2;
                     users := {[ u1 := {| pick := 10; throw := 0 |} ]} |};
     saved := []; requests := [] |}.

(** A store of [day2] in which the sender has quota left. *)
Definition fresh_world : World :=
  {| user_data := {| last_reset_date := day2;
                     users := {[ u1 := {| pick := 2; throw := 1 |} ]} |};
     saved := []; requests := [] |}.

(** A configuration asking for a one-second timeout. *)
Definition config_timeout_1 : AstrBotConfig :=
  {| cfg_api_key := Some (lit "k"); cfg_daily_pick_limit := Some 10;
     cfg_daily_throw_limit := Some 5; cfg_api_timeout := Some 1 |}.

(** A file holding a document that has a date and no [users] field. *)
Definition doc_without_users : json := JObj [(lit "last_reset_date", JStr day2)].

(** ** Shutdown, and notions used to state invariants *)

(** [terminate], as far as the store goes: the final flush.  Closing the
    session touches neither the store nor the file. *)
Definition terminate (w : World) : World := _save_user_data (user_data w) w.

(** No counter of the store is above its cap. *)
Definition within_caps (p : Plugin) (d : UserData) : Prop :=
  map_Forall (fun _ r => pick r <= daily_pick_limit p /\ throw r <= daily_throw_limit p)
             (users d).

(** The last document written to the file is the store in memory. *)
Definition synced (w : World) : Prop := head (saved w) = Some (user_data w).

(** The same sender issuing the pick command once per outcome of the
    list, one command after the other. *)
Fixpoint pick_times (p : Plugin) (today : str) (event : AstrMessageEvent)
    (outs : list Outcome) (w : World) : World :=
  match outs with
  | [] => w
  | out :: rest => pick_times p today event rest (snd (handle_pick p today out event w))
  end.

(** The outcome is a 2xx response whose string carries no failure prefix. *)
Definition is_bottle (p : Plugin) (out : Outcome) : bool :=
  match out with
  | Responds resp => negb (startswith_any (parse_response p resp) failure_prefixes)
  | Fails _ => false
  end.

(** The text component that opens the reply of a successful pick or throw. *)
Definition pick_success_text (api_result : str) (remaining : Z) : str :=
  lit "✅ 捡到漂流瓶啦！" ++ nl ++ api_result ++ nl ++ nl
  ++ lit "📊 今日剩余：" ++ str_of_Z remaining ++ lit "次".

Definition throw_success_text (api_result : str) (remaining : Z) : str :=
  lit "✅ 漂流瓶投放成功！" ++ nl ++ api_result ++ nl ++ nl
  ++ lit "📊 今日剩余：" ++ str_of_Z remaining ++ lit "次".

(** The store with the record of [qq_id] replaced. *)
Definition with_record (qq_id : str) (r : QuotaRecord) (d : UserData) : UserData :=
  {| last_reset_date := last_reset_date d; users := <[qq_id := r]> (users d) |}.

(** The world after a counted command: the new store in memory and on
    file, and the request sent. *)
Definition counted (req : Request) (d : UserData) (w : World) : World :=
  {| user_data := d; saved := d :: saved w; requests := req :: requests w |}.

(** The world a pick leaves, given the record [r] and the world [w1] that
    reading the sender's quota produced: untouched at the cap, one request
    more after an exception or a failure string, counted otherwise. *)
Definition pick_world (p : Plugin) (out : Outcome) (qq_id : str)
    (r : QuotaRecord) (w1 : World) : World :=
  if daily_pick_limit p <=? pick r then w1
  else if is_bottle p out
       then counted (pick_request p qq_id)
              (with_record qq_id {| pick := pick r + 1; throw := throw r |} (user_data w1)) w1
       else sent (pick_request p qq_id) w1.

(** The same for a throw, which also stops at an empty payload. *)
Definition throw_world (p : Plugin) (out : Outcome) (event : AstrMessageEvent)
    (content : str) (r : QuotaRecord) (w1 : World) : World :=
  if daily_throw_limit p <=? throw r then w1
  else if negb (truthy content) && negb (truthy_opt (_extract_image_url (message event)))
       then w1
       else if is_bottle p out
            then counted (throw_request p event content)
                   (with_record (get_sender_id event)
                      {| pick := pick r; throw := throw r + 1 |} (user_data w1)) w1
            else sent (throw_request p event content) w1.

(** The test both image paths apply to a URL:
    [url.startswith(("http://", "https://"))]. *)
Definition http_link (u : str) : bool :=
  startswith_any u [lit "http://"; lit "https://"].

(** The sums [admin_global] reports. *)
Definition total_pick (us : gmap str QuotaRecord) : Z :=
  map_fold (fun _ u acc => pick u + acc) 0 us.

Definition total_throw (us : gmap str QuotaRecord) : Z :=
  map_fold (fun _ u acc => throw u + acc) 0 us.

(** The reply of [admin_global] for given figures. *)
Definition global_text (p : Plugin) (total_users picks throws : Z) : str :=
  lit "📊 【管理员全局统计】今日数据" ++ nl
  ++ lit "👥 参与用户：" ++ str_of_Z total_users ++ lit "人" ++ nl
  ++ lit "✅ 总捡瓶：" ++ str_of_Z picks ++ lit "次" ++ nl
  ++ lit "✅ 总投瓶：" ++ str_of_Z throws ++ lit "次" ++ nl
  ++ lit "📌 上限：捡" ++ str_of_Z (daily_pick_limit p) ++ lit "次/人，投"
  ++ str_of_Z (daily_throw_limit p) ++ lit "次/人".

(** * Properties *)

Example lit_sentinel : lit "错误：" = [38169; 35823; 65306]%N.
Proof. reflexivity. Qed.

Example lit_emoji : lit "📊 a" = [128202; 32; 97]%N.
Proof. reflexivity. Qed.

Example str_of_Z_ex : str_of_Z 10 = lit "10" /\ str_of_Z 0 = lit "0" /\ str_of_Z (-7) = lit "-7".
Proof. repeat split; reflexivity. Qed.

Example strip_ex : strip (lit "  a b
 ") = lit "a b".
Proof. reflexivity. Qed.

Example split_ex : split 10%N (lit "a" ++ nl ++ lit "b" ++ nl) = [lit "a"; lit "b"; []].
Proof. reflexivity. Qed.

(** ** The daily reset check *)

Lemma check_reset_same_date today w :
  last_reset_date (user_data w) = today -> _check_reset_data today w = w.
Proof.
  intros Hd. unfold _check_reset_data.
  rewrite bool_decide_eq_false_2; [reflexivity | intros Hne; apply Hne, Hd].
Qed.

Lemma check_reset_date today w :
  last_reset_date (user_data (_check_reset_data today w)) = today.
Proof.
  unfold _check_reset_data. case_bool_decide as Hd; simpl.
  - reflexivity.
  - destruct (decide (last_reset_date (user_data w) = today)); [assumption | contradiction].
Qed.

Lemma check_reset_stale today w :
  last_reset_date (user_data w) <> today ->
  _check_reset_data today w =
    {| user_data := {| last_reset_date := today; users := ∅ |};
       saved := {| last_reset_date := today; users := ∅ |} :: saved w;
       requests := requests w |}.
Proof.
  intros Hd. unfold _check_reset_data. rewrite bool_decide_eq_true_2 by assumption.
  reflexivity.
Qed.

Lemma check_reset_requests today w :
  requests (_check_reset_data today w) = requests w.
Proof. unfold _check_reset_data. case_bool_decide; reflexivity. Qed.

Lemma check_reset_lookup_some today w qq r :
  users (user_data (_check_reset_data today w)) !! qq = Some r ->
  _check_reset_data today w = w.
Proof.
  intros Hl. destruct (decide (last_reset_date (user_data w) = today)) as [Hd|Hd].
  - apply check_reset_same_date, Hd.
  - rewrite (check_reset_stale _ _ Hd) in Hl. simpl in Hl.
    rewrite lookup_empty in Hl. discriminate.
Qed.

(** C9: running the daily reset check a second time with the same date
    changes nothing: the in-memory store, the list of writes to the file
    and the list of requests after the second run are those after the
    first run. *)
Theorem check_reset_idempotent today w :
  _check_reset_data today (_check_reset_data today w) = _check_reset_data today w.
Proof. apply check_reset_same_date, check_reset_date. Qed.

(** ** getOrInit *)

Lemma get_user_count_requests today qq w :
  requests (snd (_get_user_count today qq w)) = requests w.
Proof.
  unfold _get_user_count.
  destruct (users (user_data (_check_reset_data today w)) !! qq); simpl;
    apply check_reset_requests.
Qed.

Lemma get_user_count_date today qq w :
  last_reset_date (user_data (snd (_get_user_count today qq w))) = today.
Proof.
  unfold _get_user_count.
  destruct (users (user_data (_check_reset_data today w)) !! qq); simpl;
    apply check_reset_date.
Qed.

Lemma get_user_count_lookup today qq w :
  users (user_data (snd (_get_user_count today qq w))) !! qq
  = Some (fst (_get_user_count today qq w)).
Proof.
  unfold _get_user_count.
  destruct (users (user_data (_check_reset_data today w)) !! qq) eqn:Hl; simpl.
  - assumption.
  - apply lookup_insert_eq.
Qed.

(** C5: after the daily reset check, a user id absent from the mapping gets
    the zeroed record, which is returned, inserted, and written to the file
    by exactly one write on top of those of the reset check; a user id that
    is present gets its existing record and nothing else happens. *)
Theorem get_user_count_spec today qq w :
  let w1 := _check_reset_data today w in
  let r := fst (_get_user_count today qq w) in
  let w' := snd (_get_user_count today qq w) in
  match users (user_data w1) !! qq with
  | None =>
    r = {| pick := 0; throw := 0 |}
    /\ users (user_data w') = <[qq := {| pick := 0; throw := 0 |}]> (users (user_data w1))
    /\ last_reset_date (user_data w') = last_reset_date (user_data w1)
    /\ saved w' = user_data w' :: saved w1
    /\ requests w' = requests w1
  | Some r0 => r = r0 /\ w' = w1
  end.
Proof.
  unfold _get_user_count. simpl.
  destruct (users (user_data (_check_reset_data today w)) !! qq) eqn:Hl; simpl.
  - split; reflexivity.
  - repeat split; reflexivity.
Qed.

(** ** Handlers: the paths that stop before the counter is touched *)

(** Every handler starts by reading the sender's record; [read_quota]
    names the record and the world that reading leaves. *)
Ltac read_quota r w1 :=
  match goal with
  | |- context [_get_user_count ?t ?q ?w] =>
    destruct (_get_user_count t q w) as [r w1]; cbn [fst snd] in *
  end.

Section EarlyExits.

Context (p : Plugin) (today : str) (event : AstrMessageEvent) (w : World).

Let qq := get_sender_id event.
Let r := fst (_get_user_count today qq w).
Let w1 := snd (_get_user_count today qq w).

Lemma handle_pick_at_limit resp :
  daily_pick_limit p <= pick r ->
  handle_pick p today resp event w = ([plain_result (pick_limit_text p)], w1).
Proof.
  subst r w1 qq. intros Hle. unfold handle_pick. read_quota r' w'.
  apply Z.leb_le in Hle. rewrite Hle. reflexivity.
Qed.

Lemma handle_pick_failure resp :
  pick r < daily_pick_limit p ->
  startswith_any (parse_response p resp) failure_prefixes = true ->
  handle_pick p today (Responds resp) event w
  = ([plain_result (lit "❌ 捡瓶失败：" ++ parse_response p resp)],
     sent (pick_request p qq) w1).
Proof.
  subst r w1 qq. intros Hlt Hpre. unfold handle_pick. read_quota r' w'.
  apply Z.leb_gt in Hlt. rewrite Hlt.
  unfold _call_bottle_api. rewrite Hpre. reflexivity.
Qed.

Lemma handle_throw_at_limit resp content :
  daily_throw_limit p <= throw r ->
  handle_throw p today resp event content w = ([plain_result (throw_limit_text p)], w1).
Proof.
  subst r w1 qq. intros Hle. unfold handle_throw. read_quota r' w'.
  apply Z.leb_le in Hle. rewrite Hle. reflexivity.
Qed.

Lemma handle_throw_invalid resp content :
  throw r < daily_throw_limit p ->
  negb (truthy content) && negb (truthy_opt (_extract_image_url (message event))) = true ->
  handle_throw p today resp event content w = ([plain_result throw_validation_text], w1).
Proof.
  subst r w1 qq. intros Hlt Hval. unfold handle_throw. read_quota r' w'.
  apply Z.leb_gt in Hlt. rewrite Hlt, Hval. reflexivity.
Qed.

Lemma handle_throw_failure resp content :
  throw r < daily_throw_limit p ->
  negb (truthy content) && negb (truthy_opt (_extract_image_url (message event))) = false ->
  startswith_any (parse_response p resp) failure_prefixes = true ->
  handle_throw p today (Responds resp) event content w
  = ([plain_result (lit "❌ 投瓶失败：" ++ parse_response p resp)],
     sent (throw_request p event content) w1).
Proof.
  subst r w1 qq. intros Hlt Hval Hpre. unfold handle_throw. read_quota r' w'.
  apply Z.leb_gt in Hlt. rewrite Hlt, Hval.
  unfold _call_bottle_api. rewrite Hpre. reflexivity.
Qed.

End EarlyExits.

(** C6: when the count the handler reads for the sender (the record found
    once the daily reset check has run) has reached the daily pick cap, the
    pick command yields the limit message only and leaves the world as it
    found it: no request is sent, nothing is written, and the store, the
    sender's pick count included, is unchanged. *)
Theorem pick_at_cap_blocked p today resp event w r :
  users (user_data (_check_reset_data today w)) !! get_sender_id event = Some r ->
  daily_pick_limit p <= pick r ->
  handle_pick p today resp event w = ([plain_result (pick_limit_text p)], w)
  /\ users (user_data w) !! get_sender_id event = Some r.
Proof.
  intros Hl Hcap.
  pose proof (check_reset_lookup_some _ _ _ _ Hl) as Hw. rewrite Hw in Hl.
  assert (Hg : _get_user_count today (get_sender_id event) w = (r, w)).
  { unfold _get_user_count. rewrite Hw, Hl. reflexivity. }
  split; [| exact Hl].
  rewrite handle_pick_at_limit; rewrite Hg; simpl; [reflexivity | exact Hcap].
Qed.

Lemma pick_at_cap_blocked_witness :
  handle_pick plugin_default day2 (Responds (Body (lit "hello"))) event_u1 capped_world
  = ([plain_result (pick_limit_text plugin_default)], capped_world)
  /\ users (user_data capped_world) !! get_sender_id event_u1 = Some {| pick := 10; throw := 0 |}.
Proof.
  apply (pick_at_cap_blocked plugin_default day2 (Responds (Body (lit "hello"))) event_u1
           capped_world {| pick := 10; throw := 0 |}).
  - vm_compute. reflexivity.
  - vm_compute. discriminate.
Defined.

(** ** The bottle client's reading of the response *)

Lemma call_bottle_api_result p action qq content image resp w :
  fst (_call_bottle_api p action qq content image (Responds resp) w)
  = Returned (parse_response p resp).
Proof. reflexivity. Qed.

Lemma call_bottle_api_returned p action qq content image out w api_result :
  fst (_call_bottle_api p action qq content image out w) = Returned api_result ->
  exists resp, out = Responds resp /\ api_result = parse_response p resp.
Proof.
  destruct out as [resp | e]; cbn [_call_bottle_api fst]; [| discriminate].
  intros [= <-]. exists resp. split; reflexivity.
Qed.

Lemma known_sender_read today qq w :
  last_reset_date (user_data w) = today ->
  is_Some (users (user_data w) !! qq) ->
  snd (_get_user_count today qq w) = w.
Proof.
  intros Hd [r Hl]. unfold _get_user_count.
  rewrite (check_reset_same_date _ _ Hd), Hl. reflexivity.
Qed.

Lemma parse_response_success p text :
  startswith (strip text) (lit "错误：") = false ->
  parse_response p (Body text) = strip text.
Proof. intros H. unfold parse_response. rewrite H. reflexivity. Qed.

Lemma parse_response_remote_error p text :
  startswith (strip text) (lit "错误：") = true ->
  parse_response p (Body text) = lit "API错误：" ++ slice_from 4 (strip text).
Proof. intros H. unfold parse_response. rewrite H. reflexivity. Qed.

Lemma remote_error_has_failure_prefix p text :
  startswith (strip text) (lit "错误：") = true ->
  startswith_any (parse_response p (Body text)) failure_prefixes = true.
Proof. intros H. rewrite parse_response_remote_error by exact H. reflexivity. Qed.

Lemma extract_image_url_truthy msg u :
  _extract_image_url msg = Some u -> truthy u = true.
Proof.
  induction msg as [|c rest IH]; cbn [_extract_image_url]; [discriminate |].
  destruct c as [t | i |]; try exact IH.
  destruct (startswith_any i [lit "http://"; lit "https://"]) eqn:Hs; [| exact IH].
  intros [= <-]. destruct i; [discriminate Hs | reflexivity].
Qed.

Lemma throw_payload_present content msg :
  content <> [] \/ is_Some (_extract_image_url msg) ->
  negb (truthy content) && negb (truthy_opt (_extract_image_url msg)) = false.
Proof.
  intros [Hc | [u Hu]].
  - destruct content; [contradiction | reflexivity].
  - rewrite Hu. simpl. rewrite (extract_image_url_truthy _ _ Hu).
    apply andb_false_r.
Qed.

(** C7, as the code has it: when the response text, once trimmed, starts
    with the error sentinel, the pick handler and the throw handler (each
    reaching the remote call: sender under the cap, and for a throw some
    text or image) yield one failure message carrying the client's
    API-error string and do not touch the sender's count; they write
    nothing themselves, so the store and the file are what reading the
    sender's quota left.  That reading may have reset the store and created
    the sender's record, and written both; for a sender already in today's
    store it changes nothing, and then store and file are as before the
    command. *)
Theorem remote_error_not_counted p today text event content w :
  startswith (strip text) (lit "错误：") = true ->
  let qq := get_sender_id event in
  let r := fst (_get_user_count today qq w) in
  let w1 := snd (_get_user_count today qq w) in
  let err := lit "API错误：" ++ slice_from 4 (strip text) in
  let picked := handle_pick p today (Responds (Body text)) event w in
  let thrown := handle_throw p today (Responds (Body text)) event content w in
  (pick r < daily_pick_limit p ->
   fst picked = [plain_result (lit "❌ 捡瓶失败：" ++ err)]
   /\ user_data (snd picked) = user_data w1
   /\ saved (snd picked) = saved w1
   /\ users (user_data (snd picked)) !! qq = Some r)
  /\ (throw r < daily_throw_limit p ->
      content <> [] \/ is_Some (_extract_image_url (message event)) ->
      fst thrown = [plain_result (lit "❌ 投瓶失败：" ++ err)]
      /\ user_data (snd thrown) = user_data w1
      /\ saved (snd thrown) = saved w1
      /\ users (user_data (snd thrown)) !! qq = Some r)
  /\ (last_reset_date (user_data w) = today ->
      is_Some (users (user_data w) !! qq) -> w1 = w).
Proof.
  intros Hs qq r w1 err picked thrown. subst err picked thrown.
  rewrite <- (parse_response_remote_error p text Hs).
  pose proof (remote_error_has_failure_prefix p text Hs) as Hpre.
  pose proof (get_user_count_lookup today qq w) as Hl.
  split; [| split].
  - intros Hlt. subst qq r w1.
    rewrite (handle_pick_failure p today event w (Body text) Hlt Hpre).
    cbn [fst snd]. unfold sent. cbn [user_data saved].
    split; [reflexivity | split; [reflexivity | split; [reflexivity | exact Hl]]].
  - intros Hlt Hval. subst qq r w1.
    rewrite (handle_throw_failure p today event w (Body text) content Hlt
               (throw_payload_present _ _ Hval) Hpre).
    cbn [fst snd]. unfold sent. cbn [user_data saved].
    split; [reflexivity | split; [reflexivity | split; [reflexivity | exact Hl]]].
  - apply known_sender_read.
Qed.

Lemma remote_error_not_counted_witness :
  fst (handle_pick plugin_default day2 (Responds (Body (lit "错误：密钥无效"))) event_u1
         fresh_world)
  = [plain_result (lit "❌ 捡瓶失败：" ++ lit "API错误：" ++ slice_from 4 (lit "错误：密钥无效"))]
  /\ saved (snd (handle_throw plugin_default day2 (Responds (Body (lit "错误：密钥无效")))
                   event_u1 (lit "hi") fresh_world))
     = saved fresh_world
  /\ snd (_get_user_count day2 (get_sender_id event_u1) fresh_world) = fresh_world.
Proof.
  assert (Hs : startswith (strip (lit "错误：密钥无效")) (lit "错误：") = true)
    by (vm_compute; reflexivity).
  destruct (remote_error_not_counted plugin_default day2 (lit "错误：密钥无效")
              event_u1 (lit "hi") fresh_world Hs) as (Hp & Ht & Hk).
  assert (Hw : snd (_get_user_count day2 (get_sender_id event_u1) fresh_world) = fresh_world).
  { apply Hk; [reflexivity | eexists; vm_compute; reflexivity]. }
  split; [| split; [| exact Hw]].
  - apply Hp. vm_compute. reflexivity.
  - destruct Ht as (_ & _ & Hsaved & _).
    + vm_compute. reflexivity.
    + left. vm_compute. discriminate.
    + rewrite Hsaved, Hw. reflexivity.
Defined.

(** C7 as stated fails on a sender's first command of a day: the response
    starts with the sentinel, the reply is the API-error message, and yet
    the command has written the file twice and the store is no longer the
    one it found (the record of the day before is gone). *)
Lemma remote_error_first_command_writes :
  startswith (strip (lit "错误：密钥无效")) (lit "错误：") = true
  /\ fst (handle_pick plugin_default day2 (Responds (Body (lit "错误：密钥无效"))) event_u1
            stale_world)
     = [plain_result (lit "❌ 捡瓶失败：API错误：钥无效")]
  /\ saved stale_world = []
  /\ saved (snd (handle_pick plugin_default day2 (Responds (Body (lit "错误：密钥无效")))
                   event_u1 stale_world))
     = [{| last_reset_date := day2; users := {[ u1 := {| pick := 0; throw := 0 |} ]} |};
        {| last_reset_date := day2; users := ∅ |}]
  /\ users (user_data stale_world) !! u1 = Some {| pick := 3; throw := 1 |}
  /\ users (user_data (snd (handle_pick plugin_default day2
                              (Responds (Body (lit "错误：密钥无效"))) event_u1 stale_world)))
       !! u1
     = Some {| pick := 0; throw := 0 |}.
Proof.
  split; [vm_compute; reflexivity |].
  split; [vm_compute; reflexivity |].
  split; [reflexivity |].
  split; [vm_compute; reflexivity |].
  split; vm_compute; reflexivity.
Qed.

(** C8: a throw with empty text and no usable image in the message, from a
    sender under the throw cap, yields the validation message only; the
    world is the one getOrInit produced, so no request is sent and the
    sender's throw count is the one read. *)
Theorem throw_without_payload p today resp event w :
  let qq := get_sender_id event in
  let r := fst (_get_user_count today qq w) in
  let w1 := snd (_get_user_count today qq w) in
  throw r < daily_throw_limit p ->
  _extract_image_url (message event) = None ->
  handle_throw p today resp event [] w = ([plain_result throw_validation_text], w1)
  /\ requests w1 = requests w
  /\ users (user_data w1) !! qq = Some r.
Proof.
  intros qq r w1 Hlt Himg. split; [| split].
  - apply handle_throw_invalid; [exact Hlt | rewrite Himg; reflexivity].
  - apply get_user_count_requests.
  - apply get_user_count_lookup.
Qed.

Lemma throw_without_payload_witness :
  handle_throw plugin_default day2 (Responds (Body (lit "ok"))) event_u1 [] fresh_world
  = ([plain_result throw_validation_text], fresh_world).
Proof.
  assert (Hlt : throw (fst (_get_user_count day2 (get_sender_id event_u1) fresh_world))
                < daily_throw_limit plugin_default) by (vm_compute; reflexivity).
  assert (Himg : _extract_image_url (message event_u1) = None) by reflexivity.
  destruct (throw_without_payload plugin_default day2 (Responds (Body (lit "ok"))) event_u1
              fresh_world Hlt Himg) as (H & _).
  rewrite H. reflexivity.
Defined.

(** C10, as the code has it: whenever the bottle client returns a string
    that starts with "API错误", "请求" or "调用" (a success payload
    included), the pick and throw handlers that reached the call yield a
    failure message carrying that string and do not touch the sender's
    count; they write nothing themselves, so the store and the file are
    what reading the sender's quota left, and for a sender already in
    today's store they are as before the command. *)
Theorem failure_prefix_blocks_count p today out event content w api_result :
  let qq := get_sender_id event in
  let r := fst (_get_user_count today qq w) in
  let w1 := snd (_get_user_count today qq w) in
  let picked := handle_pick p today out event w in
  let thrown := handle_throw p today out event content w in
  fst (_call_bottle_api p (lit "pick") qq [] (Some []) out w1) = Returned api_result ->
  (startswith api_result (lit "API错误") = true
   \/ startswith api_result (lit "请求") = true
   \/ startswith api_result (lit "调用") = true) ->
  fst (_call_bottle_api p (lit "throw") qq content (_extract_image_url (message event))
         out w1) = Returned api_result
  /\ (pick r < daily_pick_limit p ->
      fst picked = [plain_result (lit "❌ 捡瓶失败：" ++ api_result)]
      /\ user_data (snd picked) = user_data w1
      /\ saved (snd picked) = saved w1
      /\ users (user_data (snd picked)) !! qq = Some r)
  /\ (throw r < daily_throw_limit p ->
      content <> [] \/ is_Some (_extract_image_url (message event)) ->
      fst thrown = [plain_result (lit "❌ 投瓶失败：" ++ api_result)]
      /\ user_data (snd thrown) = user_data w1
      /\ saved (snd thrown) = saved w1
      /\ users (user_data (snd thrown)) !! qq = Some r)
  /\ (last_reset_date (user_data w) = today ->
      is_Some (users (user_data w) !! qq) -> w1 = w).
Proof.
  intros qq r w1 picked thrown Hret Hpre. subst picked thrown.
  destruct (call_bottle_api_returned _ _ _ _ _ _ _ _ Hret) as (resp & -> & ->).
  assert (Hany : startswith_any (parse_response p resp) failure_prefixes = true).
  { unfold startswith_any, failure_prefixes. cbn [existsb].
    destruct Hpre as [H | [H | H]]; rewrite H;
      rewrite ?orb_true_r; reflexivity. }
  pose proof (get_user_count_lookup today qq w) as Hl.
  split; [reflexivity |]. split; [| split].
  - intros Hlt. subst qq r w1.
    rewrite (handle_pick_failure p today event w resp Hlt Hany).
    cbn [fst snd]. unfold sent. cbn [user_data saved].
    split; [reflexivity | split; [reflexivity | split; [reflexivity | exact Hl]]].
  - intros Hlt Hval. subst qq r w1.
    rewrite (handle_throw_failure p today event w resp content Hlt
               (throw_payload_present _ _ Hval) Hany).
    cbn [fst snd]. unfold sent. cbn [user_data saved].
    split; [reflexivity | split; [reflexivity | split; [reflexivity | exact Hl]]].
  - apply known_sender_read.
Qed.

Lemma failure_prefix_blocks_count_witness :
  fst (handle_pick plugin_default day2 (Responds (Body (lit "请求已送达，祝你好运"))) event_u1
         fresh_world)
  = [plain_result (lit "❌ 捡瓶失败：" ++ lit "请求已送达，祝你好运")]
  /\ saved (snd (handle_throw plugin_default day2 (Responds (Body (lit "请求已送达，祝你好运")))
                   event_u1 (lit "hi") fresh_world))
     = saved fresh_world
  /\ snd (_get_user_count day2 (get_sender_id event_u1) fresh_world) = fresh_world.
Proof.
  assert (Hret : fst (_call_bottle_api plugin_default (lit "pick") (get_sender_id event_u1) []
                        (Some []) (Responds (Body (lit "请求已送达，祝你好运")))
                        (snd (_get_user_count day2 (get_sender_id event_u1) fresh_world)))
                 = Returned (lit "请求已送达，祝你好运")) by (vm_compute; reflexivity).
  assert (Hpre : startswith (lit "请求已送达，祝你好运") (lit "请求") = true)
    by (vm_compute; reflexivity).
  destruct (failure_prefix_blocks_count plugin_default day2
              (Responds (Body (lit "请求已送达，祝你好运"))) event_u1 (lit "hi") fresh_world
              (lit "请求已送达，祝你好运") Hret (or_intror (or_introl Hpre)))
    as (_ & Hp & Ht & Hk).
  assert (Hw : snd (_get_user_count day2 (get_sender_id event_u1) fresh_world) = fresh_world).
  { apply Hk; [reflexivity | eexists; vm_compute; reflexivity]. }
  split; [| split; [| exact Hw]].
  - apply Hp. vm_compute. reflexivity.
  - destruct Ht as (_ & _ & Hsaved & _).
    + vm_compute. reflexivity.
    + left. vm_compute. discriminate.
    + rewrite Hsaved, Hw. reflexivity.
Defined.

(** C10 as stated fails for a sender who is not yet in today's store: the
    client returns a success payload that starts with "请求", the reply is
    the failure message, and yet the command has inserted the sender's
    record into the store and written the file. *)
Lemma failure_prefix_new_sender_writes :
  fst (_call_bottle_api plugin_default (lit "pick") (get_sender_id event_u2) [] (Some [])
         (Responds (Body (lit "请求已送达，祝你好运")))
         (snd (_get_user_count day2 (get_sender_id event_u2) fresh_world)))
  = Returned (lit "请求已送达，祝你好运")
  /\ startswith (lit "请求已送达，祝你好运") (lit "请求") = true
  /\ fst (handle_pick plugin_default day2 (Responds (Body (lit "请求已送达，祝你好运")))
            event_u2 fresh_world)
     = [plain_result (lit "❌ 捡瓶失败：请求已送达，祝你好运")]
  /\ saved fresh_world = []
  /\ saved (snd (handle_pick plugin_default day2 (Responds (Body (lit "请求已送达，祝你好运")))
                   event_u2 fresh_world))
     = [{| last_reset_date := day2;
           users := <[ lit "u2" := {| pick := 0; throw := 0 |} ]>
                      {[ u1 := {| pick := 2; throw := 1 |} ]} |}]
  /\ users (user_data fresh_world) !! lit "u2" = None
  /\ users (user_data (snd (handle_pick plugin_default day2
                              (Responds (Body (lit "请求已送达，祝你好运"))) event_u2
                              fresh_world))) !! lit "u2"
     = Some {| pick := 0; throw := 0 |}.
Proof.
  split; [vm_compute; reflexivity |].
  split; [vm_compute; reflexivity |].
  split; [vm_compute; reflexivity |].
  split; [reflexivity |].
  split; [vm_compute; reflexivity |].
  split; vm_compute; reflexivity.
Qed.

(** ** Which operations run the daily reset check *)

Lemma handle_my_stats_date p today event w :
  last_reset_date (user_data (snd (handle_my_stats p today event w))) = today.
Proof.
  unfold handle_my_stats.
  pose proof (get_user_count_date today (get_sender_id event) w) as Hd.
  read_quota r w1. exact Hd.
Qed.

Lemma handle_pick_date p today resp event w :
  last_reset_date (user_data (snd (handle_pick p today resp event w))) = today.
Proof.
  unfold handle_pick.
  pose proof (get_user_count_date today (get_sender_id event) w) as Hd.
  read_quota r w1.
  destruct (daily_pick_limit p <=? pick r); [exact Hd |].
  unfold _call_bottle_api. destruct resp as [resp | e]; [| exact Hd].
  destruct (startswith_any (parse_response p resp) failure_prefixes); exact Hd.
Qed.

Lemma handle_throw_date p today resp event content w :
  last_reset_date (user_data (snd (handle_throw p today resp event content w))) = today.
Proof.
  unfold handle_throw.
  pose proof (get_user_count_date today (get_sender_id event) w) as Hd.
  read_quota r w1.
  destruct (daily_throw_limit p <=? throw r); [exact Hd |].
  destruct (negb (truthy content) && negb (truthy_opt (_extract_image_url (message event))));
    [exact Hd |].
  unfold _call_bottle_api. destruct resp as [resp | e]; [| exact Hd].
  destruct (startswith_any (parse_response p resp) failure_prefixes); exact Hd.
Qed.

Lemma admin_query_world p target w : snd (admin_query p target w) = w.
Proof. reflexivity. Qed.

Lemma admin_global_world p w : snd (admin_global p w) = w.
Proof. reflexivity. Qed.

Lemma admin_reset_date p target w :
  last_reset_date (user_data (snd (admin_reset p target w))) = last_reset_date (user_data w).
Proof.
  unfold admin_reset. destruct (users (user_data w) !! strip target); reflexivity.
Qed.

(** C1, at the store of Scenario B read on the next day: the admin query
    answers with the counts of the day before under the heading of today's
    statistics, and after each of the three admin operations the stored
    date is still the old one; the personal statistics command, on the same
    store, does bring the date to the current day. *)
Theorem admin_ops_keep_stale_date :
  admin_query plugin_default u1 stale_world
  = ([plain_result (lit "🔍 【管理员查询】QQu1今日统计" ++ nl
                    ++ lit "✅ 已捡瓶：3/10次（剩余7）" ++ nl
                    ++ lit "✅ 已投瓶：1/5次（剩余4）")], stale_world)
  /\ last_reset_date (user_data (snd (admin_query plugin_default u1 stale_world))) = day1
  /\ last_reset_date (user_data (snd (admin_reset plugin_default u1 stale_world))) = day1
  /\ last_reset_date (user_data (snd (admin_global plugin_default stale_world))) = day1
  /\ day1 <> day2
  /\ last_reset_date (user_data (snd (handle_my_stats plugin_default day2 event_u1 stale_world)))
     = day2.
Proof.
  split; [vm_compute; reflexivity |].
  split; [reflexivity |].
  split; [apply admin_reset_date |].
  split; [reflexivity |].
  split; [vm_compute; discriminate |].
  apply handle_my_stats_date.
Qed.

(** ** The sentinel and the slice *)

(** C2, at the response text "错误：密钥无效": the sentinel has three
    characters and the client cuts four, so the message it returns has lost
    the first character of what follows the sentinel.  The other half of
    the claim is [parse_response_success]. *)
Theorem remote_error_message_loses_first_char :
  strip (lit "错误：密钥无效") = lit "错误：" ++ lit "密钥无效"
  /\ length (lit "错误：") = 3%nat
  /\ parse_response plugin_default (Body (lit "错误：密钥无效")) = lit "API错误：" ++ lit "钥无效"
  /\ parse_response plugin_default (Body (lit "错误：密钥无效")) <> lit "API错误：" ++ lit "密钥无效".
Proof.
  split; [vm_compute; reflexivity |].
  split; [vm_compute; reflexivity |].
  split; [vm_compute; reflexivity |].
  vm_compute. discriminate.
Qed.

(** ** The timeout of the session *)

Lemma init_session_timeout config :
  session_timeout (fst (init config)) = default 8 (cfg_api_timeout config).
Proof. reflexivity. Qed.

Lemma init_api_timeout config :
  api_timeout (fst (init config)) = Z.max 3 (default 8 (cfg_api_timeout config)).
Proof. reflexivity. Qed.

(** C3, at a configured [api_timeout] of 1: the session, and so every
    request, runs with a total timeout of 1, while the floored value 3 is
    only stored in the field [api_timeout], which the session never
    reads. *)
Theorem session_timeout_below_floor :
  session_timeout (fst (init config_timeout_1)) = 1
  /\ api_timeout (fst (init config_timeout_1)) = 3
  /\ Z.max 3 1 = 3.
Proof.
  split; [vm_compute; reflexivity |].
  split; [vm_compute; reflexivity | reflexivity].
Qed.

(** ** Loading *)

Lemma load_missing today :
  _load_user_data today Missing
  = (_get_default_user_data today, Holds (_get_default_user_data today)).
Proof. reflexivity. Qed.

Lemma load_unreadable today :
  _load_user_data today Unreadable
  = (_get_default_user_data today, Holds (_get_default_user_data today)).
Proof. reflexivity. Qed.

Lemma load_without_date today fields :
  obj_get (lit "last_reset_date") fields = None ->
  _load_user_data today (Holds (JObj fields))
  = (_get_default_user_data today, Holds (_get_default_user_data today)).
Proof.
  intros H. unfold _load_user_data, py_in. rewrite H.
  rewrite bool_decide_eq_false_2; [reflexivity | intros [x Hx]; discriminate].
Qed.

Lemma load_with_date today fields d :
  obj_get (lit "last_reset_date") fields = Some d ->
  _load_user_data today (Holds (JObj fields)) = (JObj fields, Holds (JObj fields)).
Proof.
  intros H. unfold _load_user_data, py_in. rewrite H.
  rewrite bool_decide_eq_true_2; [reflexivity | eexists; reflexivity].
Qed.

(** C4, at a file holding a document with a date and no [users] field:
    loading returns that document as it is and leaves the file alone, so
    the store in memory has no [users] mapping and is not the default one.
    For a missing file, an unreadable one and a document without the date
    the default store is returned and written: [load_missing],
    [load_unreadable], [load_without_date]. *)
Theorem load_keeps_document_without_users :
  _load_user_data day2 (Holds doc_without_users) = (doc_without_users, Holds doc_without_users)
  /\ loaded_users doc_without_users = None
  /\ fst (_load_user_data day2 (Holds doc_without_users)) <> _get_default_user_data day2.
Proof.
  split; [apply (load_with_date _ _ (JStr day2)); vm_compute; reflexivity |].
  split; [vm_compute; reflexivity |].
  vm_compute. discriminate.
Qed.

(** ** Trimming keeps a leading sentinel *)

Lemma lstrip_snoc_nonspace (l : str) (a : N) :
  isspace a = false -> lstrip (l ++ [a]) = lstrip l ++ [a].
Proof.
  intros Ha. induction l as [|c l IH]; simpl.
  - rewrite Ha. reflexivity.
  - destruct (isspace c); [exact IH | reflexivity].
Qed.

Lemma rstrip_cons_nonspace (a : N) (s : str) :
  isspace a = false -> rstrip (a :: s) = a :: rstrip s.
Proof.
  intros Ha. unfold rstrip. simpl rev.
  rewrite lstrip_snoc_nonspace by exact Ha.
  rewrite rev_app_distr. reflexivity.
Qed.

(** A response whose raw text starts with the sentinel still starts with
    it after [strip()]: no character of the sentinel is white space. *)
Lemma sentinel_survives_strip (text : str) :
  startswith text (lit "错误：") = true ->
  startswith (strip text) (lit "错误：") = true.
Proof.
  intros H.
  destruct text as [|a [|b [|c rest]]]; try discriminate H;
    try (simpl in H; rewrite ?andb_false_r in H; discriminate H).
  change (lit "错误：") with [38169; 35823; 65306]%N in *.
  simpl in H.
  apply andb_prop in H as [Ha H]. apply andb_prop in H as [Hb H].
  apply andb_prop in H as [Hc _].
  apply N.eqb_eq in Ha, Hb, Hc. subst a b c.
  unfold strip. cbn [lstrip]. change (isspace 38169) with false. cbv iota.
  rewrite !rstrip_cons_nonspace by reflexivity.
  reflexivity.
Qed.

(** ** The success paths, run on concrete inputs *)

Example pick_success :
  handle_pick plugin_default day2
    (Responds (Body (lit "内容: 你好" ++ nl ++ lit "图片URL: http://img.example/a.png" ++ nl)))
    event_u1 fresh_world
  = ([chain_result
        [Plain (lit "✅ 捡到漂流瓶啦！" ++ nl ++ lit "内容: 你好" ++ nl
                ++ lit "图片URL: http://img.example/a.png" ++ nl ++ nl
                ++ lit "📊 今日剩余：7次");
         Image (lit "http://img.example/a.png")]],
     {| user_data := {| last_reset_date := day2;
                        users := {[ u1 := {| pick := 3; throw := 1 |} ]} |};
        saved := [{| last_reset_date := day2;
                     users := {[ u1 := {| pick := 3; throw := 1 |} ]} |}];
        requests := [pick_request plugin_default u1] |}).
Proof. vm_compute. reflexivity. Qed.

Example throw_success :
  handle_throw plugin_default day2 (Responds (Body (lit "投放成功"))) event_u1 (lit "hi")
    fresh_world
  = ([chain_result [Plain (lit "✅ 漂流瓶投放成功！" ++ nl ++ lit "投放成功" ++ nl ++ nl
                           ++ lit "📊 今日剩余：3次")]],
     {| user_data := {| last_reset_date := day2;
                        users := {[ u1 := {| pick := 2; throw := 2 |} ]} |};
        saved := [{| last_reset_date := day2;
                     users := {[ u1 := {| pick := 2; throw := 2 |} ]} |}];
        requests := [{| url := api_url;
                        params := [(lit "id", u1); (lit "key", []); (lit "type", lit "text");
                                   (lit "character", lit "hi")] |}] |}).
Proof. vm_compute. reflexivity. Qed.

(** Scenario B: a quota access on the next day empties the mapping, then
    creates the sender's record; both steps write the file. *)
Example stale_store_reset_on_access :
  _get_user_count day2 u1 stale_world
  = ({| pick := 0; throw := 0 |},
     {| user_data := {| last_reset_date := day2;
                        users := {[ u1 := {| pick := 0; throw := 0 |} ]} |};
        saved := [{| last_reset_date := day2;
                     users := {[ u1 := {| pick := 0; throw := 0 |} ]} |};
                  {| last_reset_date := day2; users := ∅ |}];
        requests := [] |}).
Proof. vm_compute. reflexivity. Qed.

(** A request that raises: the exception that leaves [_call_bottle_api] is
    answered by the handler's own [except] clause, and nothing is counted. *)
Example pick_request_raises :
  handle_pick plugin_default day2 (Fails ConnectionFailed) event_u1 fresh_world
  = ([plain_result (lit "❌ 操作失败：catching classes that do not i...")],
     sent (pick_request plugin_default u1) fresh_world).
Proof. vm_compute. reflexivity. Qed.

(** * Further properties of the code *)

(** Unfolds the world-building helpers and projects the record fields, and
    nothing else: the reply texts stay as they are written. *)
Ltac world_simpl :=
  unfold counted, with_record, sent, set_user, _save_user_data, set_user_data, terminate in *;
  cbn [fst snd user_data saved requests last_reset_date users pick throw] in *.

(** ** The counted paths *)

Lemma echoed_image msg :
  match _extract_image_url msg with
  | Some u => if truthy u then [Plain (nl ++ lit "你投放的图片："); Image u] else []
  | None => []
  end
  = match _extract_image_url msg with
    | Some u => [Plain (nl ++ lit "你投放的图片："); Image u]
    | None => []
    end.
Proof.
  destruct (_extract_image_url msg) as [u|] eqn:Hu; [| reflexivity].
  rewrite (extract_image_url_truthy _ _ Hu). reflexivity.
Qed.

Section Counted.

Context (p : Plugin) (today : str) (event : AstrMessageEvent) (w : World).

Let qq := get_sender_id event.
Let r := fst (_get_user_count today qq w).
Let w1 := snd (_get_user_count today qq w).

(** X1.  A pick from a sender under the cap, answered by a 2xx response
    whose client string carries no failure prefix, is counted: the sender's
    pick count goes up by one in the store, that store is written once, one
    request has been sent, and the reply is a chain that opens with the
    bottle text and the quota left, followed by the image the text names,
    if any. *)
Theorem handle_pick_counted text :
  pick r < daily_pick_limit p ->
  startswith_any (parse_response p (Body text)) failure_prefixes = false ->
  handle_pick p today (Responds (Body text)) event w
  = ([chain_result
        (Plain (pick_success_text (parse_response p (Body text))
                  (daily_pick_limit p - (pick r + 1)))
         :: reply_image (split 10 (parse_response p (Body text))))],
     counted (pick_request p qq)
       (with_record qq {| pick := pick r + 1; throw := throw r |} (user_data w1)) w1).
Proof.
  subst r w1 qq. intros Hlt Hok. unfold handle_pick. read_quota r' w'.
  apply Z.leb_gt in Hlt. rewrite Hlt.
  cbn [_call_bottle_api]. rewrite Hok.
  unfold pick_success_text, pick_request. world_simpl. cbn [app]. reflexivity.
Qed.

(** X2.  The same for a throw that carries some text or a usable image and
    is answered by a 2xx response without failure prefix; the reply echoes
    the sender's image after the text when there is one. *)
Theorem handle_throw_counted text content :
  throw r < daily_throw_limit p ->
  content <> [] \/ is_Some (_extract_image_url (message event)) ->
  startswith_any (parse_response p (Body text)) failure_prefixes = false ->
  handle_throw p today (Responds (Body text)) event content w
  = ([chain_result
        (Plain (throw_success_text (parse_response p (Body text))
                  (daily_throw_limit p - (throw r + 1)))
         :: match _extract_image_url (message event) with
            | Some u => [Plain (nl ++ lit "你投放的图片："); Image u]
            | None => []
            end)],
     counted (throw_request p event content)
       (with_record qq {| pick := pick r; throw := throw r + 1 |} (user_data w1)) w1).
Proof.
  subst r w1 qq. intros Hlt Hval Hok.
  apply throw_payload_present in Hval.
  unfold handle_throw. read_quota r' w'.
  apply Z.leb_gt in Hlt. rewrite Hlt, Hval.
  cbn [_call_bottle_api]. rewrite Hok, echoed_image.
  unfold throw_success_text, throw_request. world_simpl. cbn [app]. reflexivity.
Qed.

(** The world a handler leaves, whatever it replies. *)
Lemma handle_pick_world out :
  snd (handle_pick p today out event w) = pick_world p out qq r w1.
Proof.
  subst r w1 qq. unfold handle_pick, pick_world. read_quota r' w'.
  destruct (daily_pick_limit p <=? pick r'); [reflexivity |].
  destruct out as [resp | e]; cbn [_call_bottle_api is_bottle]; [| reflexivity].
  destruct (startswith_any (parse_response p resp) failure_prefixes);
    unfold pick_request; world_simpl; reflexivity.
Qed.

Lemma handle_throw_world out content :
  snd (handle_throw p today out event content w) = throw_world p out event content r w1.
Proof.
  subst r w1 qq. unfold handle_throw, throw_world. read_quota r' w'.
  destruct (daily_throw_limit p <=? throw r'); [reflexivity |].
  destruct (negb (truthy content) && negb (truthy_opt (_extract_image_url (message event))));
    [reflexivity |].
  destruct out as [resp | e]; cbn [_call_bottle_api is_bottle]; [| reflexivity].
  destruct (startswith_any (parse_response p resp) failure_prefixes);
    unfold throw_request; world_simpl; reflexivity.
Qed.

Lemma handle_my_stats_world :
  snd (handle_my_stats p today event w) = w1.
Proof. subst r w1 qq. unfold handle_my_stats. read_quota r' w'. reflexivity. Qed.

End Counted.

Lemma handle_pick_counted_witness :
  handle_pick plugin_default day2 (Responds (Body (lit "你好"))) event_u1 fresh_world
  = ([chain_result [Plain (pick_success_text (lit "你好") 7)]],
     counted (pick_request plugin_default u1)
       (with_record u1 {| pick := 3; throw := 1 |} (user_data fresh_world)) fresh_world).
Proof.
  assert (H1 : pick (fst (_get_user_count day2 (get_sender_id event_u1) fresh_world))
               < daily_pick_limit plugin_default) by (vm_compute; reflexivity).
  assert (H2 : startswith_any (parse_response plugin_default (Body (lit "你好")))
                 failure_prefixes = false) by (vm_compute; reflexivity).
  rewrite (handle_pick_counted plugin_default day2 event_u1 fresh_world (lit "你好") H1 H2).
  vm_compute. reflexivity.
Defined.

Lemma handle_throw_counted_witness :
  handle_throw plugin_default day2 (Responds (Body (lit "已投放"))) event_u1 (lit "hi")
    fresh_world
  = ([chain_result [Plain (throw_success_text (lit "已投放") 3)]],
     counted (throw_request plugin_default event_u1 (lit "hi"))
       (with_record u1 {| pick := 2; throw := 2 |} (user_data fresh_world)) fresh_world).
Proof.
  assert (H1 : throw (fst (_get_user_count day2 (get_sender_id event_u1) fresh_world))
               < daily_throw_limit plugin_default) by (vm_compute; reflexivity).
  assert (H2 : lit "hi" <> [] \/ is_Some (_extract_image_url (message event_u1)))
    by (left; vm_compute; discriminate).
  assert (H3 : startswith_any (parse_response plugin_default (Body (lit "已投放")))
                 failure_prefixes = false) by (vm_compute; reflexivity).
  rewrite (handle_throw_counted plugin_default day2 event_u1 fresh_world
             (lit "已投放") (lit "hi") H1 H2 H3).
  vm_compute. reflexivity.
Defined.

(** Splits on the tests that decide which world a pick or a throw leaves. *)
Ltac world_cases :=
  unfold pick_world, throw_world;
  repeat match goal with
         | |- context [if ?b then _ else _] => destruct b eqn:?
         end;
  world_simpl.

(** ** getOrInit, once more *)

(** X3.  Reading the same sender's record a second time on the same date gives
    the same record and changes nothing: no reset, no insertion, no write. *)
Theorem get_user_count_again today qq w :
  _get_user_count today qq (snd (_get_user_count today qq w))
  = _get_user_count today qq w.
Proof.
  pose proof (get_user_count_date today qq w) as Hd.
  pose proof (get_user_count_lookup today qq w) as Hl.
  destruct (_get_user_count today qq w) as [r w1] eqn:Hg. cbn [fst snd] in *.
  unfold _get_user_count. rewrite (check_reset_same_date _ _ Hd), Hl. reflexivity.
Qed.

Lemma get_user_count_others today qq w q :
  q <> qq ->
  users (user_data (snd (_get_user_count today qq w))) !! q
  = users (user_data (_check_reset_data today w)) !! q.
Proof.
  intros Hq. unfold _get_user_count.
  destruct (users (user_data (_check_reset_data today w)) !! qq); cbn [snd]; [reflexivity |].
  world_simpl. apply lookup_insert_ne. congruence.
Qed.

(** X4.  A store whose date is not the current one: the first quota access
    leaves exactly one record, the sender's zeroed one, whatever the
    mapping held, and writes the file twice (the reset, then the record). *)
Theorem get_user_count_on_new_day today qq w :
  last_reset_date (user_data w) <> today ->
  _get_user_count today qq w
  = (zero_record,
     {| user_data := {| last_reset_date := today; users := {[ qq := zero_record ]} |};
        saved := {| last_reset_date := today; users := {[ qq := zero_record ]} |}
                 :: {| last_reset_date := today; users := ∅ |} :: saved w;
        requests := requests w |}).
Proof.
  intros Hd. unfold _get_user_count. rewrite (check_reset_stale _ _ Hd). world_simpl.
  rewrite lookup_empty. reflexivity.
Qed.

Lemma get_user_count_on_new_day_witness :
  users (user_data (snd (_get_user_count day2 (lit "u2") stale_world)))
  = {[ lit "u2" := zero_record ]}.
Proof.
  rewrite (get_user_count_on_new_day day2 (lit "u2") stale_world).
  - reflexivity.
  - vm_compute. discriminate.
Defined.

(** ** What a handler leaves alone *)

(** X5.  The pick and throw commands touch no record but the sender's: every
    other user has, afterwards, the record the daily reset check left. *)
Theorem handlers_frame_other_users p today resp event content w q :
  q <> get_sender_id event ->
  users (user_data (snd (handle_pick p today resp event w))) !! q
  = users (user_data (_check_reset_data today w)) !! q
  /\ users (user_data (snd (handle_throw p today resp event content w))) !! q
     = users (user_data (_check_reset_data today w)) !! q.
Proof.
  intros Hq.
  pose proof (get_user_count_others today (get_sender_id event) w q Hq) as Ho.
  rewrite handle_pick_world, handle_throw_world.
  split; world_cases; rewrite ?lookup_insert_ne by congruence; exact Ho.
Qed.

Lemma handlers_frame_other_users_witness :
  users (user_data (snd (handle_pick plugin_default day2 (Responds (Body (lit "ok")))
                           {| get_sender_id := lit "u2"; message := [] |} fresh_world))) !! u1
  = Some {| pick := 2; throw := 1 |}.
Proof.
  assert (Hq : u1 <> get_sender_id {| get_sender_id := lit "u2"; message := [] |})
    by (vm_compute; discriminate).
  destruct (handlers_frame_other_users plugin_default day2 (Responds (Body (lit "ok")))
              {| get_sender_id := lit "u2"; message := [] |} [] fresh_world u1 Hq) as [H _].
  rewrite H. vm_compute. reflexivity.
Defined.

(** X6.  A command sends one request or none, and which of the two does not
    depend on the response: a pick sends its request exactly when the
    sender is under the pick cap, a throw exactly when the sender is under
    the throw cap and has supplied some text or a usable image. *)
Theorem handlers_send_at_most_one_request p today resp event content w :
  let qq := get_sender_id event in
  let r := fst (_get_user_count today qq w) in
  requests (snd (handle_pick p today resp event w))
  = (if daily_pick_limit p <=? pick r then requests w
     else pick_request p qq :: requests w)
  /\ requests (snd (handle_throw p today resp event content w))
     = (if (daily_throw_limit p <=? throw r)
           || negb (truthy content) && negb (truthy_opt (_extract_image_url (message event)))
        then requests w
        else throw_request p event content :: requests w).
Proof.
  intros qq r. subst qq r.
  pose proof (get_user_count_requests today (get_sender_id event) w) as Hr.
  rewrite handle_pick_world, handle_throw_world. unfold pick_world, throw_world.
  split.
  - destruct (daily_pick_limit p <=? pick _); [exact Hr |].
    destruct (is_bottle _ _); world_simpl; rewrite Hr; reflexivity.
  - destruct (daily_throw_limit p <=? throw _); [exact Hr |]. cbn [orb].
    destruct (negb (truthy content) && _); [exact Hr |].
    destruct (is_bottle _ _); world_simpl; rewrite Hr; reflexivity.
Qed.

(** The statistics command and the three admin commands send no request. *)
Lemma read_commands_send_nothing p today event target w :
  requests (snd (handle_my_stats p today event w)) = requests w
  /\ requests (snd (admin_query p target w)) = requests w
  /\ requests (snd (admin_reset p target w)) = requests w
  /\ requests (snd (admin_global p w)) = requests w.
Proof.
  split; [| split; [| split]].
  - rewrite handle_my_stats_world. apply get_user_count_requests.
  - rewrite admin_query_world. reflexivity.
  - unfold admin_reset. destruct (users (user_data w) !! strip target); reflexivity.
  - rewrite admin_global_world. reflexivity.
Qed.

(** ** Invariants of the store *)

Lemma admin_reset_world p target w :
  snd (admin_reset p target w)
  = match users (user_data w) !! strip target with
    | Some _ =>
      {| user_data := with_record (strip target) zero_record (user_data w);
         saved := with_record (strip target) zero_record (user_data w) :: saved w;
         requests := requests w |}
    | None => w
    end.
Proof.
  unfold admin_reset. destruct (users (user_data w) !! strip target); reflexivity.
Qed.

Lemma synced_check_reset today w : synced w -> synced (_check_reset_data today w).
Proof.
  intros H. unfold _check_reset_data. case_bool_decide; [reflexivity | exact H].
Qed.

Lemma synced_get_user_count today qq w :
  synced w -> synced (snd (_get_user_count today qq w)).
Proof.
  intros H. apply (synced_check_reset today) in H. unfold _get_user_count.
  destruct (users (user_data (_check_reset_data today w)) !! qq); [exact H | reflexivity].
Qed.

(** X8.  The file follows the store: if the last document written is the store
    in memory, this is still so after any command, counted or not; and it
    is so after [terminate] whatever came before. *)
Theorem file_follows_store p today resp event content target w :
  synced (terminate w)
  /\ (synced w ->
      synced (snd (handle_pick p today resp event w))
      /\ synced (snd (handle_throw p today resp event content w))
      /\ synced (snd (handle_my_stats p today event w))
      /\ synced (snd (admin_query p target w))
      /\ synced (snd (admin_reset p target w))
      /\ synced (snd (admin_global p w))).
Proof.
  split; [reflexivity |]. intros H.
  pose proof (synced_get_user_count today (get_sender_id event) w H) as H1.
  rewrite handle_pick_world, handle_throw_world, handle_my_stats_world, admin_reset_world,
    admin_query_world, admin_global_world.
  split; [| split; [| split; [| split; [| split]]]]; try assumption.
  - unfold synced in *. world_cases; first [exact H1 | reflexivity].
  - unfold synced in *. world_cases; first [exact H1 | reflexivity].
  - destruct (users (user_data w) !! strip target); [reflexivity | exact H].
Qed.

Lemma file_follows_store_witness :
  synced (snd (handle_pick plugin_default day2 (Responds (Body (lit "ok"))) event_u1
                 (terminate fresh_world))).
Proof.
  destruct (file_follows_store plugin_default day2 (Responds (Body (lit "ok"))) event_u1 [] u1
              (terminate fresh_world)) as [_ H].
  apply H. reflexivity.
Defined.

(** ** A day of picks *)

Lemma get_user_count_known today qq w r :
  last_reset_date (user_data w) = today ->
  users (user_data w) !! qq = Some r ->
  _get_user_count today qq w = (r, w).
Proof.
  intros Hd Hl. unfold _get_user_count.
  rewrite (check_reset_same_date _ _ Hd), Hl. reflexivity.
Qed.

Lemma max_min_at_cap (x n L : Z) : L <= x -> 0 <= n -> Z.max x (Z.min (x + n) L) = x.
Proof. lia. Qed.

(** X9.  The same sender picking again and again on one day, one command
    after the other, every request answered by a 2xx response that is a
    bottle: the count the next command reads has grown by the number of
    picks, but not past the cap; a count already at or above the cap stays
    where it is.  The throw count is not touched. *)
Theorem pick_times_count p today event texts w :
  Forall (fun text => startswith_any (parse_response p (Body text)) failure_prefixes = false)
         texts ->
  fst (_get_user_count today (get_sender_id event)
         (pick_times p today event (List.map (fun text => Responds (Body text)) texts) w))
  = {| pick := Z.max (pick (fst (_get_user_count today (get_sender_id event) w)))
                 (Z.min (pick (fst (_get_user_count today (get_sender_id event) w))
                         + Z.of_nat (length texts))
                        (daily_pick_limit p));
       throw := throw (fst (_get_user_count today (get_sender_id event) w)) |}.
Proof.
  intros Hok. revert w. induction Hok as [| text rest Htext _ IH]; intros w.
  - cbn [List.map pick_times length]. destruct (fst (_get_user_count _ _ w)) as [a b].
    cbn [pick throw]. f_equal. lia.
  - cbn [List.map pick_times]. rewrite IH. clear IH.
    rewrite handle_pick_world.
    pose proof (get_user_count_date today (get_sender_id event) w) as Hd.
    pose proof (get_user_count_lookup today (get_sender_id event) w) as Hl.
    destruct (_get_user_count today (get_sender_id event) w) as [r w1].
    cbn [fst snd] in *. unfold pick_world. cbn [is_bottle]. rewrite Htext. cbn [negb].
    rewrite length_cons, Nat2Z.inj_succ.
    destruct (daily_pick_limit p <=? pick r) eqn:Hlim.
    + rewrite (get_user_count_known today (get_sender_id event) w1 r Hd Hl).
      cbn [fst]. apply Z.leb_le in Hlim. destruct r as [a b]. cbn [pick throw] in *.
      f_equal; lia.
    + apply Z.leb_gt in Hlim.
      rewrite (get_user_count_known today (get_sender_id event) _
                 {| pick := pick r + 1; throw := throw r |}).
      * cbn [fst pick throw]. f_equal; lia.
      * world_simpl. exact Hd.
      * world_simpl. apply lookup_insert_eq.
Qed.

Lemma pick_times_count_witness :
  fst (_get_user_count day2 (get_sender_id event_u1)
         (pick_times plugin_default day2 event_u1
            (List.map (fun text => Responds (Body text)) [lit "a"; lit "b"]) fresh_world))
  = {| pick := 4; throw := 1 |}.
Proof.
  assert (H : Forall (fun text => startswith_any (parse_response plugin_default (Body text))
                                    failure_prefixes = false)
                [lit "a"; lit "b"]).
  { repeat constructor. }
  rewrite (pick_times_count plugin_default day2 event_u1 _ fresh_world H).
  vm_compute. reflexivity.
Defined.

(** X10.  The first pick after the date has changed, answered by a 2xx
    response that is a bottle, with a cap of one or more: the store then
    holds one record, the sender's, with one pick and no throw, whatever it
    held the day before. *)
Theorem first_pick_of_a_new_day p today text event w :
  last_reset_date (user_data w) <> today ->
  0 < daily_pick_limit p ->
  startswith_any (parse_response p (Body text)) failure_prefixes = false ->
  user_data (snd (handle_pick p today (Responds (Body text)) event w))
  = {| last_reset_date := today;
       users := {[ get_sender_id event := {| pick := 1; throw := 0 |} ]} |}.
Proof.
  intros Hd Hlim Hok. rewrite handle_pick_world.
  unfold _get_user_count. rewrite (check_reset_stale _ _ Hd). world_simpl.
  rewrite lookup_empty. world_simpl. unfold pick_world, zero_record. cbn [pick throw].
  cbn [is_bottle]. rewrite (proj2 (Z.leb_gt _ _) Hlim), Hok. cbn [negb]. world_simpl.
  rewrite insert_insert_eq, insert_empty. reflexivity.
Qed.

Lemma first_pick_of_a_new_day_witness :
  user_data (snd (handle_pick plugin_default day2 (Responds (Body (lit "ok"))) event_u1
                    stale_world))
  = {| last_reset_date := day2; users := {[ u1 := {| pick := 1; throw := 0 |} ]} |}.
Proof.
  apply (first_pick_of_a_new_day plugin_default day2 (lit "ok") event_u1 stale_world).
  - vm_compute. discriminate.
  - vm_compute. reflexivity.
  - vm_compute. reflexivity.
Defined.

(** ** Requests that raise *)

Lemma operation_failed_reply :
  operation_failed_text except_clause_error
  = lit "❌ 操作失败：catching classes that do not i...".
Proof. vm_compute. reflexivity. Qed.

(** X11.  When the request raises (a timeout, a failed connection, an HTTP
    error status, anything else), the exception raised at the first
    [except] clause leaves [_call_bottle_api] and the handler's own
    [except] clause answers: a pick or a throw that had sent its request
    replies with the operation-failed message and counts nothing, the
    store and the file being what reading the sender's quota left. *)
Theorem request_exceptions_not_counted p today event content w e :
  let qq := get_sender_id event in
  let r := fst (_get_user_count today qq w) in
  let w1 := snd (_get_user_count today qq w) in
  (pick r < daily_pick_limit p ->
   handle_pick p today (Fails e) event w
   = ([plain_result (lit "❌ 操作失败：catching classes that do not i...")],
      sent (pick_request p qq) w1))
  /\ (throw r < daily_throw_limit p ->
      content <> [] \/ is_Some (_extract_image_url (message event)) ->
      handle_throw p today (Fails e) event content w
      = ([plain_result (lit "❌ 操作失败：catching classes that do not i...")],
         sent (throw_request p event content) w1))
  /\ user_data (snd (handle_pick p today (Fails e) event w)) = user_data w1
  /\ saved (snd (handle_pick p today (Fails e) event w)) = saved w1
  /\ user_data (snd (handle_throw p today (Fails e) event content w)) = user_data w1
  /\ saved (snd (handle_throw p today (Fails e) event content w)) = saved w1.
Proof.
  intros qq r w1. subst qq r w1. rewrite <- operation_failed_reply.
  split; [| split].
  - intros Hlt. unfold handle_pick. read_quota r w1.
    rewrite (proj2 (Z.leb_gt _ _) Hlt). reflexivity.
  - intros Hlt Hval. unfold handle_throw. read_quota r w1.
    rewrite (proj2 (Z.leb_gt _ _) Hlt), (throw_payload_present _ _ Hval). reflexivity.
  - rewrite handle_pick_world, handle_throw_world. unfold pick_world, throw_world.
    cbn [is_bottle].
    split; [| split; [| split]]; world_cases; reflexivity.
Qed.

Lemma request_exceptions_not_counted_witness :
  handle_pick plugin_default day2 (Fails (BadStatus 502)) event_u1 fresh_world
  = ([plain_result (lit "❌ 操作失败：catching classes that do not i...")],
     sent (pick_request plugin_default u1) fresh_world)
  /\ handle_throw plugin_default day2 (Fails Timeout) event_u1 (lit "hi") fresh_world
     = ([plain_result (lit "❌ 操作失败：catching classes that do not i...")],
        sent (throw_request plugin_default event_u1 (lit "hi")) fresh_world).
Proof.
  destruct (request_exceptions_not_counted plugin_default day2 event_u1 (lit "hi")
              fresh_world (BadStatus 502)) as (Hp & _).
  destruct (request_exceptions_not_counted plugin_default day2 event_u1 (lit "hi")
              fresh_world Timeout) as (_ & Ht & _).
  split.
  - rewrite Hp; [reflexivity | vm_compute; reflexivity].
  - rewrite Ht; [reflexivity | vm_compute; reflexivity | left; vm_compute; discriminate].
Defined.

(** ** Images in and out *)

(** X13.  [_extract_image_url] returns a URL exactly when the message has an
    image with an HTTP(S) link, and then the first such: every image before
    it in the chain has another kind of URL.  Components that are not
    images are passed over. *)
Theorem extract_image_url_first msg u :
  _extract_image_url msg = Some u <->
  exists pre post,
    msg = pre ++ Image u :: post
    /\ http_link u = true
    /\ forall v, In (Image v) pre -> http_link v = false.
Proof.
  split.
  - induction msg as [| c rest IH]; cbn [_extract_image_url]; [discriminate |].
    destruct c as [t | i |].
    + intros H. destruct (IH H) as (pre & post & -> & Hu & Hpre).
      exists (Plain t :: pre), post. repeat split; [exact Hu |].
      intros v [Hv | Hv]; [discriminate Hv | exact (Hpre v Hv)].
    + fold (http_link i). destruct (http_link i) eqn:Hi.
      * intros [= <-]. exists [], rest. repeat split; [exact Hi |]. intros v [].
      * intros H. destruct (IH H) as (pre & post & -> & Hu & Hpre).
        exists (Image i :: pre), post. repeat split; [exact Hu |].
        intros v [[= <-] | Hv]; [exact Hi | exact (Hpre v Hv)].
    + intros H. destruct (IH H) as (pre & post & -> & Hu & Hpre).
      exists (OtherComp :: pre), post. repeat split; [exact Hu |].
      intros v [Hv | Hv]; [discriminate Hv | exact (Hpre v Hv)].
  - intros (pre & post & -> & Hu & Hpre).
    induction pre as [| c pre IH]; cbn [app _extract_image_url].
    + fold (http_link u). rewrite Hu. reflexivity.
    + assert (IH' : _extract_image_url (pre ++ Image u :: post) = Some u).
      { apply IH. intros v Hv. apply Hpre. right. exact Hv. }
      destruct c as [t | i |]; try exact IH'.
      fold (http_link i). rewrite (Hpre i (or_introl eq_refl)). exact IH'.
Qed.

(** X14.  It returns [None] exactly when no image of the message has an HTTP(S)
    link: an empty message, a message without images, or images with
    other URLs only. *)
Theorem extract_image_url_none msg :
  _extract_image_url msg = None <-> forall v, In (Image v) msg -> http_link v = false.
Proof.
  induction msg as [| c rest IH]; cbn [_extract_image_url].
  - split; [intros _ v [] | reflexivity].
  - destruct c as [t | i |].
    + rewrite IH. split.
      * intros H v [Hv | Hv]; [discriminate Hv | exact (H v Hv)].
      * intros H v Hv. apply H. right. exact Hv.
    + fold (http_link i). destruct (http_link i) eqn:Hi.
      * split; [discriminate |]. intros H.
        rewrite (H i (or_introl eq_refl)) in Hi. discriminate Hi.
      * rewrite IH. split.
        -- intros H v [[= <-] | Hv]; [exact Hi | exact (H v Hv)].
        -- intros H v Hv. apply H. right. exact Hv.
    + rewrite IH. split.
      * intros H v [Hv | Hv]; [discriminate Hv | exact (H v Hv)].
      * intros H v Hv. apply H. right. exact Hv.
Qed.

Lemma startswith_cons_inv (s : str) (c : N) (p : str) :
  startswith s (c :: p) = true -> exists s', s = c :: s' /\ startswith s' p = true.
Proof.
  cbn [startswith]. destruct s as [| d s']; [discriminate |].
  intros H. apply andb_prop in H as [Hd Hs]. apply N.eqb_eq in Hd. subst d.
  exists s'. split; [reflexivity | exact Hs].
Qed.

Lemma label_line_shape line :
  startswith line (lit "图片URL:") = true ->
  exists rest, line = [22270; 29255; 85; 82; 76; 58]%N ++ rest.
Proof.
  change (lit "图片URL:") with [22270; 29255; 85; 82; 76; 58]%N.
  intros H. repeat (apply startswith_cons_inv in H as (? & -> & H)).
  eexists. reflexivity.
Qed.

(** X15.  A line that starts with the image label always splits in two at its
    first colon, the label and everything after it, so taking part [1] in
    [handle_pick] cannot fail. *)
Theorem label_line_splits line :
  startswith line (lit "图片URL:") = true ->
  split1 58 line = [lit "图片URL"; slice_from 6 line].
Proof.
  intros H. destruct (label_line_shape line H) as [rest ->].
  change (lit "图片URL") with [22270; 29255; 85; 82; 76]%N.
  reflexivity.
Qed.

Lemma label_line_splits_witness :
  split1 58 (lit "图片URL: http://a/b.png") = [lit "图片URL"; lit " http://a/b.png"].
Proof.
  rewrite (label_line_splits (lit "图片URL: http://a/b.png")).
  - vm_compute. reflexivity.
  - vm_compute. reflexivity.
Defined.

(** Whatever the bottle text, the reply to a pick carries at most one
    image, and only one whose URL is an HTTP(S) link other than the word
    that stands for "none". *)
Lemma reply_image_at_most_one lines :
  reply_image lines = []
  \/ exists u, reply_image lines = [Image u] /\ http_link u = true /\ u <> lit "无".
Proof.
  induction lines as [| line rest IH]; cbn [reply_image]; [left; reflexivity |].
  destruct (startswith line (lit "图片URL:")) eqn:Hl; [| exact IH].
  destruct (label_line_shape line Hl) as [v ->].
  change (split1 58 ([22270; 29255; 85; 82; 76; 58]%N ++ v))
    with [[22270; 29255; 85; 82; 76]%N; v].
  cbv beta iota zeta. fold (http_link (strip v)).
  destruct (bool_decide (strip v <> lit "无")) eqn:Hne; [| left; reflexivity].
  destruct (http_link (strip v)) eqn:Hh; [| left; reflexivity].
  right. exists (strip v).
  repeat split; [exact Hh |]. apply bool_decide_eq_true_1 in Hne. exact Hne.
Qed.

(** X16.  Only the first line that starts with the label is looked at: lines
    before it without the label are skipped, lines after it are never
    read, even when the first one yields no image. *)
Theorem reply_image_first_label pre line post :
  Forall (fun l => startswith l (lit "图片URL:") = false) pre ->
  startswith line (lit "图片URL:") = true ->
  reply_image (pre ++ line :: post)
  = (if bool_decide (strip (slice_from 6 line) <> lit "无")
        && http_link (strip (slice_from 6 line))
     then [Image (strip (slice_from 6 line))] else []).
Proof.
  intros Hpre Hl. induction Hpre as [| l pre Hlab _ IH]; cbn [app reply_image].
  - rewrite Hl. destruct (label_line_shape line Hl) as [rest ->].
    change (split1 58 ([22270; 29255; 85; 82; 76; 58]%N ++ rest))
      with [[22270; 29255; 85; 82; 76]%N; rest].
    change (slice_from 6 ([22270; 29255; 85; 82; 76; 58]%N ++ rest)) with rest.
    reflexivity.
  - rewrite Hlab. exact IH.
Qed.

Lemma reply_image_first_label_witness :
  reply_image [lit "内容: hi"; lit "图片URL: 无"; lit "图片URL: http://a/b.png"] = [].
Proof.
  assert (Hpre : Forall (fun l => startswith l (lit "图片URL:") = false) [lit "内容: hi"])
    by (repeat constructor).
  assert (Hl : startswith (lit "图片URL: 无") (lit "图片URL:") = true)
    by (vm_compute; reflexivity).
  change (reply_image ([lit "内容: hi"] ++ lit "图片URL: 无" :: [lit "图片URL: http://a/b.png"])
          = []).
  rewrite (reply_image_first_label [lit "内容: hi"] (lit "图片URL: 无")
             [lit "图片URL: http://a/b.png"] Hpre Hl).
  vm_compute. reflexivity.
Defined.

(** ** Configuration *)

(** X17.  Whatever the configuration holds, the caps the plugin works with are
    at least 1 and the timeout it reports is at least 3; absent settings
    give 10, 5 and 8.  Only the pick cap is written back to the
    configuration; the other settings stay as they were found. *)
Theorem init_config_floors_and_writeback config :
  let p := fst (init config) in
  let config' := snd (init config) in
  1 <= daily_pick_limit p /\ 1 <= daily_throw_limit p /\ 3 <= api_timeout p
  /\ (cfg_daily_pick_limit config = None -> daily_pick_limit p = 10)
  /\ (cfg_daily_throw_limit config = None -> daily_throw_limit p = 5)
  /\ (cfg_api_timeout config = None -> api_timeout p = 8)
  /\ cfg_daily_pick_limit config' = Some (daily_pick_limit p)
  /\ cfg_daily_throw_limit config' = cfg_daily_throw_limit config
  /\ cfg_api_timeout config' = cfg_api_timeout config
  /\ cfg_api_key config' = cfg_api_key config.
Proof.
  unfold init, _init_config. cbn [fst snd api_key daily_pick_limit daily_throw_limit api_timeout].
  split; [lia |]. split; [lia |]. split; [lia |].
  split; [intros ->; reflexivity |]. split; [intros ->; reflexivity |].
  split; [intros ->; reflexivity |].
  case_bool_decide as Hc; cbn [cfg_daily_pick_limit cfg_daily_throw_limit cfg_api_timeout
                                 cfg_api_key].
  - repeat split.
  - repeat split.
    destruct (decide (cfg_daily_pick_limit config
                      = Some (Z.max 1 (default 10 (cfg_daily_pick_limit config)))));
      [assumption | contradiction].
Qed.

Lemma init_config_floors_and_writeback_witness :
  daily_pick_limit (fst (init no_config)) = 10
  /\ daily_throw_limit (fst (init no_config)) = 5
  /\ api_timeout (fst (init no_config)) = 8
  /\ cfg_daily_pick_limit (snd (init no_config)) = Some 10.
Proof.
  destruct (init_config_floors_and_writeback no_config)
    as (_ & _ & _ & Hp & Ht & Hto & Hc & _).
  split; [apply Hp; reflexivity |]. split; [apply Ht; reflexivity |].
  split; [apply Hto; reflexivity |].
  rewrite Hc, (Hp eq_refl). reflexivity.
Defined.

(** X18.  Initialising again from the configuration that initialisation left
    gives the same plugin fields and rewrites nothing. *)
Theorem init_config_stable config :
  _init_config (snd (init config)) (_init_aiohttp_session config) = init config.
Proof.
  destruct config as [k pl tl to].
  unfold init, _init_config, _init_aiohttp_session.
  cbn [cfg_api_key cfg_daily_pick_limit cfg_daily_throw_limit cfg_api_timeout fst snd].
  set (PL := Z.max 1 (default 10 pl)).
  assert (HPL : Z.max 1 PL = PL) by (subst PL; lia).
  destruct (bool_decide (pl <> Some PL)) eqn:Hc;
    cbn [cfg_api_key cfg_daily_pick_limit cfg_daily_throw_limit cfg_api_timeout
         from_option id].
  - rewrite HPL, bool_decide_eq_false_2 by (intros Hne; apply Hne; reflexivity).
    reflexivity.
  - fold PL. rewrite Hc. reflexivity.
Qed.

(** ** Loading, continued *)

(** X19.  After loading, the file holds exactly the document that was returned;
    that document passes the membership test for the date field; it is
    either the document the file held or the default one; and loading a
    second time returns the same and leaves the file alone. *)
Theorem load_user_data_settles today f :
  snd (_load_user_data today f) = Holds (fst (_load_user_data today f))
  /\ py_in (lit "last_reset_date") (fst (_load_user_data today f)) = Some true
  /\ (f = Holds (fst (_load_user_data today f))
      \/ fst (_load_user_data today f) = _get_default_user_data today)
  /\ _load_user_data today (snd (_load_user_data today f)) = _load_user_data today f.
Proof.
  assert (Hdef : py_in (lit "last_reset_date") (_get_default_user_data today) = Some true)
    by (vm_compute; reflexivity).
  assert (Hagain : _load_user_data today (Holds (_get_default_user_data today))
                   = (_get_default_user_data today, Holds (_get_default_user_data today))).
  { unfold _load_user_data. rewrite Hdef. reflexivity. }
  assert (Hdflt : forall f0,
             _load_user_data today f0
             = (_get_default_user_data today, Holds (_get_default_user_data today)) ->
             snd (_load_user_data today f0) = Holds (fst (_load_user_data today f0))
             /\ py_in (lit "last_reset_date") (fst (_load_user_data today f0)) = Some true
             /\ (f0 = Holds (fst (_load_user_data today f0))
                 \/ fst (_load_user_data today f0) = _get_default_user_data today)
             /\ _load_user_data today (snd (_load_user_data today f0))
                = _load_user_data today f0).
  { intros f0 E. rewrite E. cbn [fst snd].
    split; [reflexivity | split; [exact Hdef | split; [right; reflexivity | exact Hagain]]]. }
  destruct f as [| | data]; try (apply Hdflt; reflexivity).
  destruct (py_in (lit "last_reset_date") data) as [[|]|] eqn:Hin.
  - assert (E : _load_user_data today (Holds data) = (data, Holds data)).
    { unfold _load_user_data. rewrite Hin. reflexivity. }
    rewrite E. cbn [fst snd].
    split; [reflexivity | split; [exact Hin | split; [left; reflexivity | exact E]]].
  - apply Hdflt. unfold _load_user_data. rewrite Hin. reflexivity.
  - apply Hdflt. unfold _load_user_data. rewrite Hin. reflexivity.
Qed.

(** X20.  The membership test is Python's [in], so documents that are not
    objects get through it: an array with the string "last_reset_date"
    among its items and a string that contains it are returned as the store
    as they are, with no [users] to read; a number, a boolean and null make
    the test raise and are replaced by the default document. *)
Theorem load_non_object_documents today items s z b :
  (In (JStr (lit "last_reset_date")) items ->
   _load_user_data today (Holds (JArr items)) = (JArr items, Holds (JArr items))
   /\ loaded_users (JArr items) = None)
  /\ (is_substring (lit "last_reset_date") s = true ->
      _load_user_data today (Holds (JStr s)) = (JStr s, Holds (JStr s))
      /\ loaded_users (JStr s) = None)
  /\ fst (_load_user_data today (Holds (JNum z))) = _get_default_user_data today
  /\ fst (_load_user_data today (Holds (JBool b))) = _get_default_user_data today
  /\ fst (_load_user_data today (Holds JNull)) = _get_default_user_data today.
Proof.
  split; [| split; [| repeat split]].
  - intros Hin. split; [| reflexivity].
    unfold _load_user_data, py_in.
    assert (Hex : existsb (fun x => match x with
                                    | JStr s0 => bool_decide (s0 = lit "last_reset_date")
                                    | _ => false
                                    end) items = true).
    { apply existsb_exists. exists (JStr (lit "last_reset_date")).
      split; [exact Hin | apply bool_decide_eq_true_2; reflexivity]. }
    rewrite Hex. reflexivity.
  - intros Hs. split; [| reflexivity].
    unfold _load_user_data, py_in. rewrite Hs. reflexivity.
Qed.

Lemma load_non_object_documents_witness :
  _load_user_data day2 (Holds (JArr [JNum 1; JStr (lit "last_reset_date")]))
  = (JArr [JNum 1; JStr (lit "last_reset_date")],
     Holds (JArr [JNum 1; JStr (lit "last_reset_date")]))
  /\ _load_user_data day2 (Holds (JStr (lit "no last_reset_date here")))
     = (JStr (lit "no last_reset_date here"), Holds (JStr (lit "no last_reset_date here"))).
Proof.
  destruct (load_non_object_documents day2 [JNum 1; JStr (lit "last_reset_date")]
              (lit "no last_reset_date here") 0 true) as (Ha & Hs & _).
  split.
  - apply Ha. right. left. reflexivity.
  - apply Hs. vm_compute. reflexivity.
Defined.

(** ** The statistics command *)

(** X21.  For a sender already in today's store the statistics command only
    reads: it replies with the sender's counts and leaves the world as it
    found it.  For a sender not yet in today's store it is not read-only:
    it creates the zeroed record and writes the file. *)
Theorem my_stats_reads_or_creates p today event w :
  last_reset_date (user_data w) = today ->
  (forall r, users (user_data w) !! get_sender_id event = Some r ->
     handle_my_stats p today event w
     = ([plain_result (lit "📊 你的今日漂流瓶统计" ++ nl ++ stats_lines p r ++ nl
                       ++ lit "📌 次数每日0点自动重置～")], w))
  /\ (users (user_data w) !! get_sender_id event = None ->
      snd (handle_my_stats p today event w)
      = {| user_data := with_record (get_sender_id event) zero_record (user_data w);
           saved := with_record (get_sender_id event) zero_record (user_data w) :: saved w;
           requests := requests w |}).
Proof.
  intros Hd. split.
  - intros r Hl. unfold handle_my_stats.
    rewrite (get_user_count_known today _ w r Hd Hl). reflexivity.
  - intros Hl. rewrite handle_my_stats_world. unfold _get_user_count.
    rewrite (check_reset_same_date _ _ Hd), Hl. reflexivity.
Qed.

Lemma my_stats_reads_or_creates_witness :
  snd (handle_my_stats plugin_default day2 event_u1 fresh_world) = fresh_world.
Proof.
  assert (Hd : last_reset_date (user_data fresh_world) = day2) by reflexivity.
  destruct (my_stats_reads_or_creates plugin_default day2 event_u1 fresh_world Hd) as [H _].
  rewrite (H {| pick := 2; throw := 1 |}).
  - reflexivity.
  - vm_compute. reflexivity.
Defined.

(** ** The first command of a user on a day *)

(** X22.  With the caps that initialisation computes, whatever was configured, a
    sender who has no record once the daily check has run is never refused:
    the pick sends its request, and so does a throw that carries some text
    or a usable image. *)
Theorem first_command_never_refused config today resp event content w :
  users (user_data (_check_reset_data today w)) !! get_sender_id event = None ->
  requests (snd (handle_pick (fst (init config)) today resp event w))
  = pick_request (fst (init config)) (get_sender_id event) :: requests w
  /\ (content <> [] \/ is_Some (_extract_image_url (message event)) ->
      requests (snd (handle_throw (fst (init config)) today resp event content w))
      = throw_request (fst (init config)) event content :: requests w).
Proof.
  intros Hnone.
  assert (Hp : 1 <= daily_pick_limit (fst (init config))).
  { unfold init, _init_config. cbn [fst daily_pick_limit]. lia. }
  assert (Ht : 1 <= daily_throw_limit (fst (init config))).
  { unfold init, _init_config. cbn [fst daily_throw_limit]. lia. }
  pose proof (get_user_count_requests today (get_sender_id event) w) as Hreq.
  assert (Hr : fst (_get_user_count today (get_sender_id event) w) = zero_record).
  { unfold _get_user_count. rewrite Hnone. reflexivity. }
  rewrite handle_pick_world, handle_throw_world. unfold pick_world, throw_world.
  rewrite Hr. unfold zero_record. cbn [pick throw].
  rewrite !(proj2 (Z.leb_gt _ _)) by lia.
  split.
  - destruct (is_bottle _ _); world_simpl; rewrite Hreq; reflexivity.
  - intros Hval. rewrite (throw_payload_present _ _ Hval).
    destruct (is_bottle _ _); world_simpl; rewrite Hreq; reflexivity.
Qed.

Lemma first_command_never_refused_witness :
  requests (snd (handle_pick (fst (init config_timeout_1)) day2 (Responds (Body (lit "ok"))) event_u1
                   stale_world))
  = [pick_request (fst (init config_timeout_1)) u1].
Proof.
  destruct (first_command_never_refused config_timeout_1 day2 (Responds (Body (lit "ok"))) event_u1 []
              stale_world) as [H _].
  - vm_compute. reflexivity.
  - rewrite H. reflexivity.
Defined.

(** ** The admin commands *)

(** X23.  An admin reset touches one record at most: every other record and the
    date stay; a target that is present gets the zeroed record and the file
    is written once; a target that is absent is not created and nothing is
    written. *)
Theorem admin_reset_effect p target w :
  (forall q, q <> strip target ->
     users (user_data (snd (admin_reset p target w))) !! q = users (user_data w) !! q)
  /\ last_reset_date (user_data (snd (admin_reset p target w)))
     = last_reset_date (user_data w)
  /\ (is_Some (users (user_data w) !! strip target) ->
      users (user_data (snd (admin_reset p target w))) !! strip target = Some zero_record
      /\ saved (snd (admin_reset p target w))
         = user_data (snd (admin_reset p target w)) :: saved w)
  /\ (users (user_data w) !! strip target = None -> snd (admin_reset p target w) = w).
Proof.
  rewrite admin_reset_world.
  destruct (users (user_data w) !! strip target) as [r|] eqn:Hl; world_simpl.
  - split; [| split; [| split]].
    + intros q Hq. apply lookup_insert_ne. congruence.
    + reflexivity.
    + intros _. split; [apply lookup_insert_eq | reflexivity].
    + discriminate.
  - split; [| split; [| split]]; try reflexivity.
    intros [x Hx]. discriminate Hx.
Qed.

Lemma admin_reset_effect_witness :
  users (user_data (snd (admin_reset plugin_default (lit " u1 ") capped_world))) !! strip (lit " u1 ")
  = Some zero_record
  /\ snd (admin_reset plugin_default (lit "u9") capped_world) = capped_world.
Proof.
  destruct (admin_reset_effect plugin_default (lit " u1 ") capped_world) as (_ & _ & Hp & _).
  destruct (admin_reset_effect plugin_default (lit "u9") capped_world) as (_ & _ & _ & Ha).
  split.
  - apply Hp. eexists. vm_compute. reflexivity.
  - apply Ha. vm_compute. reflexivity.
Defined.

(** X24.  After an admin reset of a sender who had used up the day's picks, the
    sender's next pick goes out again (the cap being one or more). *)
Theorem admin_reset_unblocks p today resp event target w :
  last_reset_date (user_data w) = today ->
  strip target = get_sender_id event ->
  is_Some (users (user_data w) !! get_sender_id event) ->
  0 < daily_pick_limit p ->
  requests (snd (handle_pick p today resp event (snd (admin_reset p target w))))
  = pick_request p (get_sender_id event) :: requests w.
Proof.
  intros Hd Ht [r Hl] Hlim.
  rewrite handle_pick_world, admin_reset_world, Ht, Hl.
  rewrite (get_user_count_known today (get_sender_id event) _ zero_record).
  - cbn [fst snd]. unfold pick_world, zero_record. cbn [pick].
    rewrite (proj2 (Z.leb_gt _ _) Hlim).
    destruct (is_bottle _ _); reflexivity.
  - world_simpl. exact Hd.
  - world_simpl. apply lookup_insert_eq.
Qed.

Lemma admin_reset_unblocks_witness :
  requests (snd (handle_pick plugin_default day2 (Responds (Body (lit "ok"))) event_u1
                   (snd (admin_reset plugin_default (lit " u1 ") capped_world))))
  = [pick_request plugin_default u1].
Proof.
  rewrite (admin_reset_unblocks plugin_default day2 (Responds (Body (lit "ok"))) event_u1 (lit " u1 ")
             capped_world).
  - reflexivity.
  - reflexivity.
  - vm_compute. reflexivity.
  - eexists. vm_compute. reflexivity.
  - vm_compute. reflexivity.
Defined.

(** ** Trimming *)

Lemma lstrip_shape (s : str) :
  lstrip s = [] \/ exists a s', lstrip s = a :: s' /\ isspace a = false.
Proof.
  induction s as [| c s IH]; cbn [lstrip]; [left; reflexivity |].
  destruct (isspace c) eqn:Hc; [exact IH |].
  right. exists c, s. split; [reflexivity | exact Hc].
Qed.

Lemma lstrip_nonspace (a : N) (s : str) : isspace a = false -> lstrip (a :: s) = a :: s.
Proof. intros Ha. cbn [lstrip]. rewrite Ha. reflexivity. Qed.

Lemma lstrip_idem (s : str) : lstrip (lstrip s) = lstrip s.
Proof.
  destruct (lstrip_shape s) as [-> | (a & s' & -> & Ha)]; [reflexivity |].
  apply lstrip_nonspace, Ha.
Qed.

Lemma rstrip_idem (s : str) : rstrip (rstrip s) = rstrip s.
Proof. unfold rstrip. rewrite rev_involutive, lstrip_idem. reflexivity. Qed.

(** [strip()] is idempotent. *)
Lemma strip_idem (s : str) : strip (strip s) = strip s.
Proof.
  unfold strip.
  destruct (lstrip_shape s) as [-> | (a & s' & -> & Ha)]; [reflexivity |].
  rewrite (rstrip_cons_nonspace a s' Ha), (lstrip_nonspace _ _ Ha).
  rewrite <- (rstrip_cons_nonspace a s' Ha). apply rstrip_idem.
Qed.

(** X25.  The admin commands take their target trimmed: white space around the
    identifier changes neither the reply nor the effect. *)
Theorem admin_commands_trim_target p target w :
  admin_query p target w = admin_query p (strip target) w
  /\ admin_reset p target w = admin_reset p (strip target) w.
Proof.
  unfold admin_query, admin_reset. cbv zeta. rewrite strip_idem.
  split; reflexivity.
Qed.

(** X26.  The string the client returns for a 2xx response, error sentinel or
    not, neither starts nor ends with a white-space character. *)
Theorem client_text_is_trimmed p text c :
  head (parse_response p (Body text)) = Some c
  \/ last (parse_response p (Body text)) = Some c ->
  isspace c = false.
Proof.
  assert (Hhead : forall s a, head (strip s) = Some a -> isspace a = false).
  { intros s a. unfold strip.
    destruct (lstrip_shape s) as [-> | (b & s' & -> & Hb)]; [discriminate |].
    rewrite (rstrip_cons_nonspace b s' Hb). intros [= <-]. exact Hb. }
  assert (Hlast : forall s a, last (strip s) = Some a -> isspace a = false).
  { intros s a. unfold strip, rstrip.
    destruct (lstrip_shape (rev (lstrip s))) as [-> | (b & s' & -> & Hb)]; [discriminate |].
    cbn [rev]. rewrite last_snoc. intros [= <-]. exact Hb. }
  unfold parse_response.
  destruct (startswith (strip text) (lit "错误：")) eqn:Hs; cbn [negb].
  - change (lit "API错误：") with [65; 80; 73; 38169; 35823; 65306]%N.
    intros [H | H].
    + injection H as <-. reflexivity.
    + rewrite last_app in H. unfold slice_from in H.
      destruct (last (drop 4 (strip text))) as [y|] eqn:Hy.
      * injection H as <-. apply (Hlast text).
        rewrite <- (take_drop 4 (strip text)), last_app, Hy. reflexivity.
      * injection H as <-. reflexivity.
  - intros [H | H]; [exact (Hhead _ _ H) | exact (Hlast _ _ H)].
Qed.

Lemma client_text_is_trimmed_witness : isspace 104 = false.
Proof.
  apply (client_text_is_trimmed plugin_default (lit "  hi  ") 104).
  left. vm_compute. reflexivity.
Defined.

(** ** The global figures *)

Lemma admin_global_reply p w :
  admin_global p w
  = ([plain_result (global_text p (Z.of_nat (size (users (user_data w))))
                      (total_pick (users (user_data w)))
                      (total_throw (users (user_data w))))], w).
Proof. unfold admin_global, global_text, total_pick, total_throw. cbv zeta. reflexivity. Qed.

Lemma totals_replace (us : gmap str QuotaRecord) qq r r' :
  us !! qq = Some r ->
  total_pick (<[qq := r']> us) = total_pick us - pick r + pick r'
  /\ total_throw (<[qq := r']> us) = total_throw us - throw r + throw r'
  /\ size (<[qq := r']> us) = size us.
Proof.
  intros Hl. unfold total_pick, total_throw.
  rewrite <- (insert_delete_eq us qq r').
  rewrite !map_fold_insert_L by (first [apply lookup_delete_eq | intros; lia]).
  rewrite (map_fold_delete_L (fun _ u acc => pick u + acc) 0 qq r us)
    by (first [exact Hl | intros; lia]).
  rewrite (map_fold_delete_L (fun _ u acc => throw u + acc) 0 qq r us)
    by (first [exact Hl | intros; lia]).
  rewrite insert_delete_eq.
  split; [lia | split; [lia |]].
  apply map_size_insert_Some. exists r. exact Hl.
Qed.

(** X27.  A counted pick (sender under the cap, 2xx response without failure
    prefix) shows in the global statistics as one pick more, the same
    throws and the same number of participants as when the sender's record
    had just been read. *)
Theorem global_totals_after_counted_pick p today text event w :
  let r := fst (_get_user_count today (get_sender_id event) w) in
  let w1 := snd (_get_user_count today (get_sender_id event) w) in
  pick r < daily_pick_limit p ->
  startswith_any (parse_response p (Body text)) failure_prefixes = false ->
  fst (admin_global p (snd (handle_pick p today (Responds (Body text)) event w)))
  = [plain_result (global_text p (Z.of_nat (size (users (user_data w1))))
                     (total_pick (users (user_data w1)) + 1)
                     (total_throw (users (user_data w1))))].
Proof.
  intros r w1 Hlt Hok. subst r w1.
  rewrite admin_global_reply, handle_pick_world. cbn [fst].
  pose proof (get_user_count_lookup today (get_sender_id event) w) as Hl.
  unfold pick_world. cbn [is_bottle].
  rewrite (proj2 (Z.leb_gt _ _) Hlt), Hok. cbn [negb]. world_simpl.
  destruct (totals_replace _ _ _
              {| pick := pick (fst (_get_user_count today (get_sender_id event) w)) + 1;
                 throw := throw (fst (_get_user_count today (get_sender_id event) w)) |} Hl)
    as (Hp & Ht & Hs).
  rewrite Hp, Ht, Hs. cbn [pick throw].
  do 3 f_equal; lia.
Qed.

Lemma global_totals_after_counted_pick_witness :
  fst (admin_global plugin_default
         (snd (handle_pick plugin_default day2 (Responds (Body (lit "ok"))) event_u1 fresh_world)))
  = [plain_result (global_text plugin_default 1 3 1)].
Proof.
  rewrite (global_totals_after_counted_pick plugin_default day2 (lit "ok") event_u1
             fresh_world).
  - vm_compute. reflexivity.
  - vm_compute. reflexivity.
  - vm_compute. reflexivity.
Defined.

(** X28.  With every record within the caps, the totals that [admin_global]
    reports are bounded by the number of participants times the cap. *)
Theorem global_totals_bounded p d :
  within_caps p d ->
  total_pick (users d) <= Z.of_nat (size (users d)) * daily_pick_limit p
  /\ total_throw (users d) <= Z.of_nat (size (users d)) * daily_throw_limit p.
Proof.
  unfold within_caps, total_pick, total_throw.
  induction (users d) as [| k r m Hk IH] using map_ind; intros H.
  - rewrite !map_fold_empty, map_size_empty. lia.
  - rewrite !map_fold_insert_L by (first [exact Hk | intros; lia]).
    rewrite map_size_insert_None by exact Hk.
    apply map_Forall_insert in H as [[Hp Ht] Hm]; [| exact Hk].
    destruct (IH Hm) as [IHp IHt]. lia.
Qed.

Lemma global_totals_bounded_witness :
  total_pick (users (user_data capped_world))
  <= Z.of_nat (size (users (user_data capped_world))) * daily_pick_limit plugin_default.
Proof.
  apply (global_totals_bounded plugin_default (user_data capped_world)).
  unfold within_caps, capped_world. world_simpl. apply map_Forall_singleton. vm_compute.
  split; discriminate.
Defined.

(** ** The throw command at the cap *)

(** X29.  A sender whose throw count, as the handler reads it, has reached the
    throw cap gets the limit message and nothing else happens, with or
    without text and image: the cap is checked before the payload. *)
Theorem throw_at_cap_blocked p today resp event content w r :
  users (user_data (_check_reset_data today w)) !! get_sender_id event = Some r ->
  daily_throw_limit p <= throw r ->
  handle_throw p today resp event content w = ([plain_result (throw_limit_text p)], w).
Proof.
  intros Hl Hcap.
  pose proof (check_reset_lookup_some _ _ _ _ Hl) as Hw. rewrite Hw in Hl.
  assert (Hg : _get_user_count today (get_sender_id event) w = (r, w)).
  { unfold _get_user_count. rewrite Hw, Hl. reflexivity. }
  rewrite handle_throw_at_limit; rewrite Hg; cbn [fst snd]; [reflexivity | exact Hcap].
Qed.

Lemma throw_at_cap_blocked_witness :
  handle_throw plugin_default day2 (Responds (Body (lit "ok"))) event_u1 []
    {| user_data := {| last_reset_date := day2;
                       users := {[ u1 := {| pick := 0; throw := 5 |} ]} |};
       saved := []; requests := [] |}
  = ([plain_result (throw_limit_text plugin_default)],
     {| user_data := {| last_reset_date := day2;
                        users := {[ u1 := {| pick := 0; throw := 5 |} ]} |};
        saved := []; requests := [] |}).
Proof.
  apply (throw_at_cap_blocked plugin_default day2 (Responds (Body (lit "ok"))) event_u1 [] _
           {| pick := 0; throw := 5 |}).
  - vm_compute. reflexivity.
  - vm_compute. discriminate.
Defined.

(** ** Dates and writes *)

Lemma check_reset_writes today w :
  exists new, saved (_check_reset_data today w) = new ++ saved w
              /\ (length new <= 1)%nat
              /\ Forall (fun d => last_reset_date d = today) new.
Proof.
  unfold _check_reset_data. case_bool_decide.
  - eexists [_]. world_simpl. split; [reflexivity |]. split; [cbn; lia |].
    repeat constructor.
  - exists []. split; [reflexivity |]. split; [cbn; lia | constructor].
Qed.

Lemma get_user_count_writes today qq w :
  exists new, saved (snd (_get_user_count today qq w)) = new ++ saved w
              /\ (length new <= 2)%nat
              /\ Forall (fun d => last_reset_date d = today) new.
Proof.
  destruct (check_reset_writes today w) as (new & Hs & Hlen & Hall).
  pose proof (check_reset_date today w) as Hd.
  unfold _get_user_count.
  destruct (users (user_data (_check_reset_data today w)) !! qq); cbn [snd].
  - exists new. split; [exact Hs |]. split; [lia | exact Hall].
  - eexists (_ :: new). world_simpl. rewrite Hs.
    split; [reflexivity |]. split; [cbn [length]; lia |].
    constructor; [exact Hd | exact Hall].
Qed.

(** X30.  After a pick, a throw or a statistics query the stored date is the
    current date, and the command has written the file at most three
    times, each time a document that carries the current date. *)
Theorem user_commands_date_and_writes p today resp event content w w' :
  w' = snd (handle_pick p today resp event w)
  \/ w' = snd (handle_throw p today resp event content w)
  \/ w' = snd (handle_my_stats p today event w) ->
  last_reset_date (user_data w') = today
  /\ exists new, saved w' = new ++ saved w
                 /\ (length new <= 3)%nat
                 /\ Forall (fun d => last_reset_date d = today) new.
Proof.
  destruct (get_user_count_writes today (get_sender_id event) w) as (new & Hs & Hlen & Hall).
  pose proof (get_user_count_date today (get_sender_id event) w) as Hd.
  assert (Hsame : forall w2, w2 = snd (_get_user_count today (get_sender_id event) w)
                             \/ (exists req, w2 = sent req (snd (_get_user_count today
                                                       (get_sender_id event) w))) ->
            last_reset_date (user_data w2) = today
            /\ exists new, saved w2 = new ++ saved w /\ (length new <= 3)%nat
                           /\ Forall (fun d => last_reset_date d = today) new).
  { intros w2 [-> | [req ->]]; world_simpl;
      (split; [exact Hd | exists new; split; [exact Hs | split; [lia | exact Hall]]]). }
  assert (Hcount : forall w2 req r',
            w2 = counted req (with_record (get_sender_id event) r'
                                (user_data (snd (_get_user_count today (get_sender_id event) w))))
                   (snd (_get_user_count today (get_sender_id event) w)) ->
            last_reset_date (user_data w2) = today
            /\ exists new, saved w2 = new ++ saved w /\ (length new <= 3)%nat
                           /\ Forall (fun d => last_reset_date d = today) new).
  { intros w2 req r' ->. world_simpl. split; [exact Hd |].
    eexists (_ :: new). rewrite Hs. split; [reflexivity |].
    split; [cbn [length]; lia |]. constructor; [exact Hd | exact Hall]. }
  intros [-> | [-> | ->]].
  - rewrite handle_pick_world. unfold pick_world.
    destruct (daily_pick_limit p <=? pick _); [apply Hsame; left; reflexivity |].
    destruct (is_bottle _ _);
      [eapply Hcount; reflexivity | apply Hsame; right; eexists; reflexivity].
  - rewrite handle_throw_world. unfold throw_world.
    destruct (daily_throw_limit p <=? throw _); [apply Hsame; left; reflexivity |].
    destruct (negb (truthy content) && _); [apply Hsame; left; reflexivity |].
    destruct (is_bottle _ _);
      [eapply Hcount; reflexivity | apply Hsame; right; eexists; reflexivity].
  - rewrite handle_my_stats_world. apply Hsame. left. reflexivity.
Qed.

Lemma user_commands_date_and_writes_witness :
  last_reset_date
    (user_data (snd (handle_pick plugin_default day2 (Responds (Body (lit "ok"))) event_u1 stale_world)))
  = day2.
Proof.
  apply (user_commands_date_and_writes plugin_default day2 (Responds (Body (lit "ok"))) event_u1 []
           stale_world).
  left. reflexivity.
Defined.
